(** * gammapy.utils.modeling: conversion between gamma-cat sources and the
      XML source-model exchange format

    A shallow embedding of [gammapy/utils/modeling.py].  Python classes
    become modules, class methods become functions, exceptions become the
    error side of a [result], and the values the XML primitive returns are a
    small inductive type with the dynamic behaviour of Python's indexing,
    membership and iteration written out. *)

From Stdlib Require Import String Ascii List Bool Arith PrimFloat.
Import ListNotations.
Local Open Scope string_scope.
Local Open Scope list_scope.

(** ** Characters that a literal cannot hold *)

Definition dquote_char : ascii := ascii_of_nat 34.
Definition newline_char : ascii := ascii_of_nat 10.
Definition dquote : string := String dquote_char EmptyString.
Definition nl : string := String newline_char EmptyString.

(** ** The catalog collaborator (gamma-cat)

    A catalog source exposes [data] (a table row) and a spectral model whose
    [to_dict()] either returns a dictionary [{name, parameters}] or raises. *)

Record Quantity := mkQuantity { q_value : float; q_unit : string }.

Record gammacat_parameter :=
  mkGammacatParameter { gc_name : string; gc_val : float; gc_unit : string }.

Record gammacat_spectrum :=
  mkGammacatSpectrum { gs_name : string; gs_parameters : list gammacat_parameter }.

(** Exceptions that carry no reference to a catalog source. *)
Inductive base_exn :=
| KeyError (key : string)
| TypeError
| AttributeError
| ZeroDivisionError
| ValueError (msg : string)
| IndexError (msg : string)
| UnknownModelError (msg : string)
| ExpatError.

(** [UnknownModelError] subclasses [ValueError]: an [except ValueError]
    clause catches both. *)
Definition is_ValueError (e : base_exn) : bool :=
  match e with
  | ValueError _ | UnknownModelError _ => true
  | _ => false
  end.

Record catalog_source := mkCatalogSource {
  common_name : string;
  morph_type : string;
  glon : Quantity;
  glat : Quantity;
  morph_sigma : Quantity;
  (** [source.spectral_model.to_dict()]: the dictionary, or what it raised *)
  spectral_model_to_dict : base_exn + gammacat_spectrum;
  (** [str(source)], as used when the source is formatted into a message *)
  source_str : string
}.

Inductive exn :=
| Base (e : base_exn)
| NoDataAvailableError (source : catalog_source).

Coercion Base : base_exn >-> exn.

(** ** Results: a value, or a raised exception *)

Inductive result (A : Type) :=
| Ok (a : A)
| Raise (e : exn).

Arguments Ok {A} a.
Arguments Raise {A} e.

Definition bind {A B : Type} (r : result A) (k : A -> result B) : result B :=
  match r with
  | Ok a => k a
  | Raise e => Raise e
  end.

Notation "'let*' x ':=' r 'in' k" := (bind r (fun x => k))
  (at level 10, x name, r at level 100, k at level 200).

(** A list comprehension [[f(_) for _ in l]] over a fallible [f]: elements
    are converted left to right and the first exception aborts. *)
Fixpoint map_result {A B : Type} (f : A -> result B) (l : list A) : result (list B) :=
  match l with
  | [] => Ok []
  | a :: l' =>
      let* b := f a in
      let* bs := map_result f l' in
      Ok (b :: bs)
  end.

(** ** Values returned by the XML primitive

    [xmltodict.parse] returns nested ordered mappings: an element with
    attributes or children is a mapping whose attribute keys carry the
    prefix [@] and always map to strings, an element with text only is that
    string, an empty element is [None], and repeated children are promoted to
    a list.  Attribute keys start with [@] and no child key does, so the two
    kinds of entries are kept apart: an attribute key is looked up among the
    attributes, a child key among the children, and the keys of the mapping
    are those of the attributes followed by those of the children. *)

#[local] Set Warnings "-register-all".

Inductive xml_value :=
| XNone
| XStr (s : string)
| XList (l : list xml_value)
| XDict (attrs : list (string * string)) (items : list (string * xml_value)).

Fixpoint assoc {V : Type} (k : string) (l : list (string * V)) : option V :=
  match l with
  | [] => None
  | (k', v) :: l' => if String.eqb k k' then Some v else assoc k l'
  end.

Definition keys (attrs : list (string * string)) (items : list (string * xml_value))
  : list string :=
  map fst attrs ++ map fst items.

(** [d[k]] for an attribute key [k] (one that starts with [@]). *)
Definition attr (d : xml_value) (k : string) : result string :=
  match d with
  | XDict attrs _ =>
      match assoc k attrs with
      | Some s => Ok s
      | None => Raise (KeyError k)
      end
  | _ => Raise TypeError
  end.

(** [d[k]] for a child key [k]. *)
Definition item (d : xml_value) (k : string) : result xml_value :=
  match d with
  | XDict _ items =>
      match assoc k items with
      | Some v => Ok v
      | None => Raise (KeyError k)
      end
  | _ => Raise TypeError
  end.

(** [d.get(k, default)] for an attribute key: only mappings have [get]. *)
Definition attr_get (d : xml_value) (k : string) (default : string) : result string :=
  match d with
  | XDict attrs _ =>
      match assoc k attrs with
      | Some s => Ok s
      | None => Ok default
      end
  | _ => Raise AttributeError
  end.

Fixpoint prefixb (p s : string) : bool :=
  match p, s with
  | EmptyString, _ => true
  | String a p', String b s' => Ascii.eqb a b && prefixb p' s'
  | String _ _, EmptyString => false
  end.

Fixpoint substringb (p s : string) : bool :=
  prefixb p s ||
  match s with
  | EmptyString => false
  | String _ s' => substringb p s'
  end.

(** [k in d]: key membership in a mapping, element membership in a list,
    substring test on a string; [None] is not a container. *)
Definition contains (d : xml_value) (k : string) : result bool :=
  match d with
  | XDict attrs items => Ok (existsb (String.eqb k) (keys attrs items))
  | XList l =>
      Ok (existsb (fun v => match v with XStr s => String.eqb s k | _ => false end) l)
  | XStr s => Ok (substringb k s)
  | XNone => Raise TypeError
  end.

Fixpoint chars (s : string) : list string :=
  match s with
  | EmptyString => []
  | String c s' => String c EmptyString :: chars s'
  end.

(** [for x in d]: a list yields its elements, a mapping its keys, a string
    its characters; [None] is not iterable. *)
Definition iter (d : xml_value) : result (list xml_value) :=
  match d with
  | XList l => Ok l
  | XDict attrs items => Ok (map XStr (keys attrs items))
  | XStr s => Ok (map XStr (chars s))
  | XNone => Raise TypeError
  end.

(** ** The XML primitive

    [gammapy/extern/xmltodict.py] is a bundled third-party module.  The
    model below reads the subset of XML that the conversion code writes:
    the declaration as [to_xml] writes it, elements with quoted attributes,
    empty-element tags and character data.  A character of a text is a code
    point below 256.  Entity references, comments, CDATA sections, document
    type declarations and processing instructions are outside the subset and
    are refused as malformed, as is everything the XML primitive refuses:
    control characters, names that are no XML names, attributes that are
    repeated or not set apart by white space, the end of a CDATA section in
    character data, tags that do not match, a second root element, and text
    outside the root element. *)

Module xmltodict.

Local Open Scope nat_scope.

(** Modelled from the spec: the events the XML primitive's reader delivers
    while it scans a document. *)
Inductive event :=
| StartElement (name : string) (attrs : list (string * string))
| EndElement (name : string)
| Characters (data : string).

Definition code (c : ascii) : nat := nat_of_ascii c.

Definition is_space (c : ascii) : bool :=
  match code c with
  | 9 | 10 | 13 | 32 => true
  | _ => false
  end.

(** A character that may occur in a document: a tab, a line break, a
    carriage return, or any character from the space on. *)
Definition is_legal (c : ascii) : bool :=
  let n := code c in
  (n =? 9) || (n =? 10) || (n =? 13) || (32 <=? n).

(** The characters of XML names among the code points below 256. *)
Definition is_name_start (c : ascii) : bool :=
  let n := code c in
  ((65 <=? n) && (n <=? 90)) || ((97 <=? n) && (n <=? 122)) ||
  (n =? 95) || (n =? 58) ||
  ((192 <=? n) && (n <=? 214)) || ((216 <=? n) && (n <=? 246)) || (248 <=? n).

Definition is_name_char (c : ascii) : bool :=
  let n := code c in
  is_name_start c || ((48 <=? n) && (n <=? 57)) || (n =? 45) || (n =? 46) || (n =? 183).

Definition snoc (s : string) (c : ascii) : string := s ++ String c EmptyString.

(** Modelled from the spec: where the reader stands inside a document.
    The modes after a carriage return remember that a line feed that follows
    belongs to the same line end. *)
Inductive mode :=
| Content (text : string)
| ContentCR (text : string)
| TagOpen
| StartName (name : string)
| Attributes (name : string) (attrs : list (string * string))
| AttrName (name : string) (attrs : list (string * string)) (key : string)
| AttrEquals (name : string) (attrs : list (string * string)) (key : string)
| AttrQuote (name : string) (attrs : list (string * string)) (key : string)
| AttrValue (name : string) (attrs : list (string * string)) (key : string)
    (quote : ascii) (val : string)
| AttrValueCR (name : string) (attrs : list (string * string)) (key : string)
    (quote : ascii) (val : string)
| AttrEnd (name : string) (attrs : list (string * string))
| EmptyTag (name : string) (attrs : list (string * string))
| EndName (name : string)
| EndSpace (name : string)
| Malformed.

Definition has_key (key : string) (attrs : list (string * string)) : bool :=
  existsb (fun kv => String.eqb key (fst kv)) attrs.

(** The text ends with two closing square brackets. *)
Fixpoint ends_with_brackets (s : string) : bool :=
  match s with
  | EmptyString => false
  | String a s' =>
      match s' with
      | String b EmptyString => (code a =? 93) && (code b =? 93)
      | _ => ends_with_brackets s'
      end
  end.

(** Modelled from the spec: one character of character data.  A [<] ends
    the data and delivers it; a carriage return is read as a line feed. *)
Definition content_step (text : string) (c : ascii) : mode * list event :=
  let n := code c in
  if n =? 60 then
    (TagOpen, match text with EmptyString => [] | _ => [Characters text] end)
  else if n =? 38 then (Malformed, [])
  else if (n =? 62) && ends_with_brackets text then (Malformed, [])
  else if n =? 13 then (ContentCR (snoc text newline_char), [])
  else (Content (snoc text c), []).

(** Modelled from the spec: one character of an attribute value.  A tab, a
    line feed or a carriage return is read as a space. *)
Definition attr_value_step (name : string) (attrs : list (string * string))
    (key : string) (quote : ascii) (val : string) (c : ascii) : mode * list event :=
  let n := code c in
  if Ascii.eqb c quote then
    if has_key key attrs then (Malformed, [])
    else (AttrEnd name (attrs ++ [(key, val)]), [])
  else if (n =? 60) || (n =? 38) then (Malformed, [])
  else if n =? 13 then (AttrValueCR name attrs key quote (snoc val " "), [])
  else if (n =? 9) || (n =? 10) then
    (AttrValue name attrs key quote (snoc val " "), [])
  else (AttrValue name attrs key quote (snoc val c), []).

(** Modelled from the spec: one character of the document, the mode it
    leads to and the events it completes. *)
Definition step (m : mode) (c : ascii) : mode * list event :=
  let n := code c in
  if negb (is_legal c) then (Malformed, [])
  else
  match m with
  | Content text => content_step text c
  | ContentCR text =>
      if n =? 10 then (Content text, []) else content_step text c
  | TagOpen =>
      if n =? 47 then (EndName EmptyString, [])
      else if is_name_start c then (StartName (String c EmptyString), [])
      else (Malformed, [])
  | StartName name =>
      if is_name_char c then (StartName (snoc name c), [])
      else if is_space c then (Attributes name [], [])
      else if n =? 62 then (Content EmptyString, [StartElement name []])
      else if n =? 47 then (EmptyTag name [], [])
      else (Malformed, [])
  | Attributes name attrs =>
      if is_space c then (Attributes name attrs, [])
      else if n =? 62 then (Content EmptyString, [StartElement name attrs])
      else if n =? 47 then (EmptyTag name attrs, [])
      else if is_name_start c then (AttrName name attrs (String c EmptyString), [])
      else (Malformed, [])
  | AttrName name attrs key =>
      if is_name_char c then (AttrName name attrs (snoc key c), [])
      else if n =? 61 then (AttrQuote name attrs key, [])
      else if is_space c then (AttrEquals name attrs key, [])
      else (Malformed, [])
  | AttrEquals name attrs key =>
      if is_space c then (AttrEquals name attrs key, [])
      else if n =? 61 then (AttrQuote name attrs key, [])
      else (Malformed, [])
  | AttrQuote name attrs key =>
      if is_space c then (AttrQuote name attrs key, [])
      else if (n =? 34) || (n =? 39) then (AttrValue name attrs key c EmptyString, [])
      else (Malformed, [])
  | AttrValue name attrs key quote val => attr_value_step name attrs key quote val c
  | AttrValueCR name attrs key quote val =>
      if n =? 10 then (AttrValue name attrs key quote val, [])
      else attr_value_step name attrs key quote val c
  | AttrEnd name attrs =>
      if is_space c then (Attributes name attrs, [])
      else if n =? 62 then (Content EmptyString, [StartElement name attrs])
      else if n =? 47 then (EmptyTag name attrs, [])
      else (Malformed, [])
  | EmptyTag name attrs =>
      if n =? 62 then (Content EmptyString, [StartElement name attrs; EndElement name])
      else (Malformed, [])
  | EndName name =>
      if is_name_char c then (EndName (snoc name c), [])
      else
        match name with
        | EmptyString => (Malformed, [])
        | _ =>
            if is_space c then (EndSpace name, [])
            else if n =? 62 then (Content EmptyString, [EndElement name])
            else (Malformed, [])
        end
  | EndSpace name =>
      if is_space c then (EndSpace name, [])
      else if n =? 62 then (Content EmptyString, [EndElement name])
      else (Malformed, [])
  | Malformed => (Malformed, [])
  end.

(** Modelled from the spec: the reader run over a text from a mode. *)
Fixpoint scan (m : mode) (s : string) : mode * list event :=
  match s with
  | EmptyString => (m, [])
  | String c s' =>
      let (m1, out1) := step m c in
      let (m2, out2) := scan m1 s' in
      (m2, out1 ++ out2)
  end.

Fixpoint all_space (s : string) : bool :=
  match s with
  | EmptyString => true
  | String c s' => is_space c && all_space s'
  end.

(** [s.strip()]: the characters Python counts as white space among the
    code points below 256. *)
Definition is_py_space (c : ascii) : bool :=
  let n := code c in
  ((9 <=? n) && (n <=? 13)) || ((28 <=? n) && (n <=? 32)) || (n =? 133) || (n =? 160).

Fixpoint lstrip (s : string) : string :=
  match s with
  | EmptyString => EmptyString
  | String c s' => if is_py_space c then lstrip s' else s
  end.

Fixpoint rstrip (s : string) : string :=
  match s with
  | EmptyString => EmptyString
  | String c s' =>
      match rstrip s' with
      | EmptyString => if is_py_space c then EmptyString else String c EmptyString
      | r => String c r
      end
  end.

Definition strip (s : string) : string := rstrip (lstrip s).

(** An ordered mapping under construction: attribute entries, then the
    entries pushed for children and text. *)
Definition dict : Type := (list (string * string) * list (string * xml_value))%type.

Definition to_value (d : dict) : xml_value := XDict (fst d) (snd d).

(** Modelled from the spec: implicit list promotion.  The first value under
    a key is stored as it is; a second one turns the entry into a list of
    both; later ones are appended. *)
Fixpoint push (key : string) (v : xml_value) (l : list (string * xml_value))
  : list (string * xml_value) :=
  match l with
  | [] => [(key, v)]
  | (k, old) :: l' =>
      if String.eqb key k then
        match old with
        | XList vs => (k, XList (vs ++ [v])) :: l'
        | _ => (k, XList [old; v]) :: l'
        end
      else (k, old) :: push key v l'
  end.

(** Modelled from the spec: [push_data(item, key, data)]; a missing [item]
    starts an empty mapping. *)
Definition push_data (item : option dict) (key : string) (v : xml_value) : dict :=
  match item with
  | None => ([], push key v [])
  | Some (attrs, items) => (attrs, push key v items)
  end.

(** Modelled from the spec: the state of the mapping builder: the names of
    the open elements (innermost first), the saved [(item, data)] of their
    parents, and the [item] and character [data] of the current one. *)
Record handler := mkHandler {
  path : list string;
  stack : list (option dict * list string);
  item : option dict;
  data : list string
}.

Definition initial : handler := mkHandler [] [] None [].

(** Modelled from the spec: the attribute convention: every attribute
    name is keyed with the prefix [@]. *)
Definition prefixed (attrs : list (string * string)) : list (string * string) :=
  map (fun kv => (("@" ++ fst kv)%string, snd kv)) attrs.

Definition start_element (h : handler) (name : string) (attrs : list (string * string))
  : handler :=
  mkHandler (name :: path h) ((item h, data h) :: stack h)
    (match attrs with [] => None | _ => Some (prefixed attrs, []) end) [].

(** The character data of an element: joined, stripped, and dropped when
    nothing is left. *)
Definition text_of (data : list string) : option string :=
  match data with
  | [] => None
  | _ =>
      match strip (String.concat EmptyString data) with
      | EmptyString => None
      | s => Some s
      end
  end.

Definition end_element (h : handler) (name : string) : handler :=
  match stack h with
  | (parent_item, parent_data) :: rest =>
      let value :=
        match item h with
        | Some it =>
            match text_of (data h) with
            | Some s => to_value (push_data (Some it) "#text" (XStr s))
            | None => to_value it
            end
        | None =>
            match text_of (data h) with
            | Some s => XStr s
            | None => XNone
            end
        end in
      mkHandler (tl (path h)) rest (Some (push_data parent_item name value)) parent_data
  | [] => mkHandler (tl (path h)) [] None []
  end.

Definition characters (h : handler) (d : string) : handler :=
  mkHandler (path h) (stack h) (item h) (data h ++ [d]).

(** Modelled from the spec: one event fed to the builder, or [None] where
    the reader refuses the document: a second root element, an end tag that
    does not close the innermost open element, text outside the root. *)
Definition feed (h : handler) (e : event) : option handler :=
  match e with
  | StartElement name attrs =>
      match path h, item h with
      | [], Some _ => None
      | _, _ => Some (start_element h name attrs)
      end
  | EndElement name =>
      match path h with
      | open :: _ => if String.eqb name open then Some (end_element h name) else None
      | [] => None
      end
  | Characters d =>
      match path h with
      | [] => if all_space d then Some h else None
      | _ => Some (characters h d)
      end
  end.

Fixpoint feed_all (h : handler) (evs : list event) : option handler :=
  match evs with
  | [] => Some h
  | e :: evs' =>
      match feed h e with
      | Some h' => feed_all h' evs'
      | None => None
      end
  end.

(** The declaration that [to_xml] writes at the start of a document. *)
Definition declaration : string :=
  ("<?xml version=" ++ dquote ++ "1.0" ++ dquote ++ " ?>")%string.

Fixpoint strip_prefix (p s : string) : option string :=
  match p with
  | EmptyString => Some s
  | String a p' =>
      match s with
      | String b s' => if Ascii.eqb a b then strip_prefix p' s' else None
      | EmptyString => None
      end
  end.

(** The document after its declaration, if it starts with one. *)
Definition body (xml : string) : string :=
  match strip_prefix declaration xml with
  | Some rest => rest
  | None => xml
  end.

(** What is left of the document after its last tag has to be white
    space. *)
Definition trailing_space (m : mode) : bool :=
  match m with
  | Content text | ContentCR text => all_space text
  | _ => false
  end.

(** Modelled from the spec: [xmltodict.parse(text)]: the nested mapping of
    a document, with [@]-keyed attributes and implicit list promotion of
    repeated child elements. *)
Definition parse (xml : string) : result xml_value :=
  let (m, evs) := scan (Content EmptyString) (body xml) in
  if trailing_space m then
    match feed_all initial evs with
    | Some h =>
        match path h, item h with
        | [], Some d => Ok (to_value d)
        | _, _ => Raise ExpatError
        end
    | None => Raise ExpatError
    end
  else Raise ExpatError.

End xmltodict.

(** ** Built-ins of the Python runtime

    Formatting and parsing of floats and the [repr] of strings and
    containers belong to the interpreter; the conversion code only calls
    them, so they are an interface here. *)

Class PyRuntime := {
  (** [format(x)] of a float, as in ['{value}'.format(value=x)] *)
  str_float : float -> string;
  (** [repr(x)] of a float *)
  repr_float : float -> string;
  (** [repr(s)] of a string *)
  repr_str : string -> string;
  (** [float(s)] of a string; [None] when it raises [ValueError] *)
  float_of_str : string -> option float;
  (** [str(d)] of a value returned by the XML primitive *)
  str_xml_value : xml_value -> string;
  (** [str(d)] of the catalog's spectral-model dictionary *)
  str_gammacat_spectrum : gammacat_spectrum -> string
}.

(** The argument of [float(...)]: a float already, or a string to parse. *)
Inductive number_like :=
| NFloat (x : float)
| NStr (s : string).

Definition py_float `{PyRuntime} (v : number_like) : result float :=
  match v with
  | NFloat x => Ok x
  | NStr s =>
      match float_of_str s with
      | Some x => Ok x
      | None => Raise (ValueError ("could not convert string to float: " ++ repr_str s))
      end
  end.

(** ** Parameter

    The class [Parameter] is the module [Param]: [Parameter] is a reserved
    word of the prover. *)

Module Param.

Record t := mk { name : string; value : float; unit : string }.

Section WithRuntime.
Context `{PyRuntime}.

(** [Parameter(name, value, unit)]: the value is coerced with [float]. *)
Definition init (name : string) (value : number_like) (unit : string) : result t :=
  let* x := py_float value in
  Ok (mk name x unit).

Definition repr (self : t) : string :=
  "Parameter(name=" ++ repr_str (name self) ++
  ", value=" ++ repr_float (value self) ++
  ", unit=" ++ repr_str (unit self) ++ ")".

Definition from_dict (data : gammacat_parameter) : result t :=
  init (gc_name data) (NFloat (gc_val data)) (gc_unit data).

Definition from_dict_gammacat (data : gammacat_parameter) : result t :=
  init (gc_name data) (NFloat (gc_val data)) (gc_unit data).

Definition from_dict_xml (data : xml_value) : result t :=
  let* unit := attr_get data "@unit" EmptyString in
  let* name := attr data "@name" in
  let* value := attr data "@value" in
  init name (NStr value) unit.

Definition to_xml (self : t) : string :=
  "        <parameter name=" ++ dquote ++ name self ++ dquote ++
  " value=" ++ dquote ++ str_float (value self) ++ dquote ++
  " unit=" ++ dquote ++ unit self ++ dquote ++ "/>".

End WithRuntime.

End Param.

(** ** ParameterSet *)

Module ParameterSet.

Record t := mk { data : list Param.t }.

Section WithRuntime.
Context `{PyRuntime}.

Definition repr (self : t) : string :=
  "ParameterSet(data=[" ++ String.concat ", " (map Param.repr (data self)) ++ "])".

Definition from_list_of_dict_gammacat (data : list gammacat_parameter) : result t :=
  let* l := map_result Param.from_dict_gammacat data in
  Ok (mk l).

Definition from_list_of_dict_xml (data : xml_value) : result t :=
  let* elements := iter data in
  let* l := map_result Param.from_dict_xml elements in
  Ok (mk l).

(** The loop of [par]: the first member whose name equals [name]. *)
Fixpoint lookup (name : string) (l : list Param.t) : option Param.t :=
  match l with
  | [] => None
  | par :: l' =>
      if String.eqb name (Param.name par) then Some par else lookup name l'
  end.

Definition par (self : t) (name : string) : result Param.t :=
  match lookup name (data self) with
  | Some par => Ok par
  | None =>
      Raise (IndexError ("Parameter " ++ name ++ " not found for pset: " ++ repr self))
  end.

Definition to_xml (self : t) : string :=
  String.concat nl (map Param.to_xml (data self)).

End WithRuntime.

End ParameterSet.

(** ** BaseModel *)

Module BaseModel.

(** The objects a model constructor can be given: [None], a string, a
    float, a [Parameter], a [ParameterSet] (which holds whatever object it
    was built from), a list and a tuple of any objects. *)
Inductive py_object :=
| ObjNone
| ObjStr (s : string)
| ObjFloat (x : float)
| ObjParameter (p : Param.t)
| ObjParameterSet (data : py_object)
| ObjList (elements : list py_object)
| ObjTuple (elements : list py_object).

(** [isinstance(o, ParameterSet)] and [isinstance(o, list)]. *)
Definition isinstance_ParameterSet (o : py_object) : bool :=
  match o with
  | ObjParameterSet _ => true
  | _ => false
  end.

Definition isinstance_list (o : py_object) : bool :=
  match o with
  | ObjList _ => true
  | _ => false
  end.

Section WithRuntime.
Context `{PyRuntime}.

(** [repr(o)]: a tuple of one element is written with a comma. *)
Fixpoint repr (o : py_object) : string :=
  match o with
  | ObjNone => "None"
  | ObjStr s => repr_str s
  | ObjFloat x => repr_float x
  | ObjParameter p => Param.repr p
  | ObjParameterSet data => "ParameterSet(data=" ++ repr data ++ ")"
  | ObjList elements => "[" ++ String.concat ", " (map repr elements) ++ "]"
  | ObjTuple elements =>
      "(" ++ String.concat ", " (map repr elements) ++
      match elements with
      | [_] => ",)"
      | _ => ")"
      end
  end.

(** [str(o)], as in ['{}'.format(o)]. *)
Definition str (o : py_object) : string :=
  match o with
  | ObjStr s => s
  | ObjFloat x => str_float x
  | _ => repr o
  end.

(** [BaseModel.__init__] on any object: the value stored in
    [self.parameters]. *)
Definition init_object (parameters : py_object) : result py_object :=
  if isinstance_ParameterSet parameters then Ok parameters
  else if isinstance_list parameters then Ok (ObjParameterSet parameters)
  else
    Raise (ValueError
             ("Need list of Parameter or ParameterSet. Invalid input: " ++ str parameters)).

End WithRuntime.

(** The two kinds of arguments that the conversion code itself passes to a
    model constructor: a [ParameterSet] of parameters, and a list of
    parameters. *)
Inductive init_arg :=
| OfParameterSet (pset : ParameterSet.t)
| OfList (l : list Param.t).

(** [BaseModel.__init__] at these arguments: the first [isinstance] test
    keeps a [ParameterSet], the second wraps a list. *)
Definition init (parameters : init_arg) : result ParameterSet.t :=
  match parameters with
  | OfParameterSet pset => Ok pset
  | OfList l => Ok (ParameterSet.mk l)
  end.

(** A set of parameters and an argument of the conversion code as
    objects. *)
Definition object_of_pset (pset : ParameterSet.t) : py_object :=
  ObjParameterSet (ObjList (map ObjParameter (ParameterSet.data pset))).

Definition object_of_arg (parameters : init_arg) : py_object :=
  match parameters with
  | OfParameterSet pset => object_of_pset pset
  | OfList l => ObjList (map ObjParameter l)
  end.

End BaseModel.

(** ** Spectral models *)

Inductive spectral_class := PowerLaw | PowerLaw2 | ExpCutoff.

Record spectral_model := mkSpectral {
  spectral_class_of : spectral_class;
  spectral_parameters : ParameterSet.t
}.

(** [cls(parameters=...)] for a spectral class. *)
Definition new_spectral (cls : spectral_class) (parameters : BaseModel.init_arg)
  : result spectral_model :=
  let* pset := BaseModel.init parameters in
  Ok (mkSpectral cls pset).

(** [a / b] on floats: a zero divisor raises. *)
Definition py_truediv (a b : float) : result float :=
  if PrimFloat.eqb b 0%float then Raise ZeroDivisionError else Ok (a / b)%float.

Module SpectralModelPowerLaw.
Section WithRuntime.
Context `{PyRuntime}.

Definition xml_type : string := "PowerLaw".
Definition xml_types : list string := [xml_type].

Definition from_pset (pset : ParameterSet.t) : result spectral_model :=
  let* par := ParameterSet.par pset "amplitude" in
  let* prefactor := Param.init "Prefactor" (NFloat (Param.value par)) (Param.unit par) in
  let* par := ParameterSet.par pset "index" in
  let* index := Param.init "Index" (NFloat (- Param.value par)%float) (Param.unit par) in
  let* par := ParameterSet.par pset "reference" in
  let* scale := Param.init "Scale" (NFloat (Param.value par)) (Param.unit par) in
  let parameters := [prefactor; index; scale] in
  new_spectral PowerLaw (BaseModel.OfList parameters).

End WithRuntime.
End SpectralModelPowerLaw.

Module SpectralModelPowerLaw2.
Section WithRuntime.
Context `{PyRuntime}.

Definition xml_type : string := "PowerLaw2".
Definition xml_types : list string := [xml_type].

Definition from_pset (pset : ParameterSet.t) : result spectral_model :=
  let* par := ParameterSet.par pset "amplitude" in
  let* integral := Param.init "Integral" (NFloat (Param.value par)) (Param.unit par) in
  let* par := ParameterSet.par pset "index" in
  let* index := Param.init "Index" (NFloat (- Param.value par)%float) (Param.unit par) in
  let* par := ParameterSet.par pset "emin" in
  let* lower_limit := Param.init "LowerLimit" (NFloat (Param.value par)) (Param.unit par) in
  let* par := ParameterSet.par pset "emax" in
  let* upper_limit := Param.init "UpperLimit" (NFloat (Param.value par)) (Param.unit par) in
  let parameters := [integral; index; lower_limit; upper_limit] in
  new_spectral PowerLaw2 (BaseModel.OfList parameters).

End WithRuntime.
End SpectralModelPowerLaw2.

Module SpectralModelExpCutoff.
Section WithRuntime.
Context `{PyRuntime}.

Definition xml_type : string := "ExpCutoff".
Definition xml_types : list string := [xml_type].

Definition from_pset (pset : ParameterSet.t) : result spectral_model :=
  let* par := ParameterSet.par pset "amplitude" in
  let* prefactor := Param.init "Prefactor" (NFloat (Param.value par)) (Param.unit par) in
  let* par := ParameterSet.par pset "index" in
  let* index := Param.init "Index" (NFloat (Param.value par)) (Param.unit par) in
  let* par := ParameterSet.par pset "lambda_" in
  let* inverse := py_truediv 1 (Param.value par) in
  let* cutoff := Param.init "Cutoff" (NFloat inverse) (Param.unit par) in
  let* par := ParameterSet.par pset "reference" in
  let* scale := Param.init "Scale" (NFloat (Param.value par)) (Param.unit par) in
  let parameters := [prefactor; index; cutoff; scale] in
  new_spectral ExpCutoff (BaseModel.OfList parameters).

End WithRuntime.
End SpectralModelExpCutoff.

Module SpectralModel.
Section WithRuntime.
Context `{PyRuntime}.

Definition xml_type (self : spectral_model) : string :=
  match spectral_class_of self with
  | PowerLaw => SpectralModelPowerLaw.xml_type
  | PowerLaw2 => SpectralModelPowerLaw2.xml_type
  | ExpCutoff => SpectralModelExpCutoff.xml_type
  end.

Definition xml_types (self : spectral_model) : list string :=
  match spectral_class_of self with
  | PowerLaw => SpectralModelPowerLaw.xml_types
  | PowerLaw2 => SpectralModelPowerLaw2.xml_types
  | ExpCutoff => SpectralModelExpCutoff.xml_types
  end.

Definition from_xml_dict (data : xml_value) : result spectral_model :=
  let* model_type := attr data "@type" in
  let* parameter := item data "parameter" in
  let* parameters := ParameterSet.from_list_of_dict_xml parameter in
  if String.eqb model_type SpectralModelPowerLaw.xml_type then
    new_spectral PowerLaw (BaseModel.OfParameterSet parameters)
  else if String.eqb model_type SpectralModelPowerLaw2.xml_type then
    new_spectral PowerLaw2 (BaseModel.OfParameterSet parameters)
  else if String.eqb model_type SpectralModelExpCutoff.xml_type then
    new_spectral ExpCutoff (BaseModel.OfParameterSet parameters)
  else
    Raise (UnknownModelError ("Unknown spatial model: " ++ model_type)).

Definition from_gammacat (source : catalog_source) : result spectral_model :=
  let* data :=
    match spectral_model_to_dict source with
    | inr data => Ok data
    | inl e => if is_ValueError e then Raise (NoDataAvailableError source) else Raise e
    end in
  let* pset := ParameterSet.from_list_of_dict_gammacat (gs_parameters data) in
  if String.eqb (gs_name data) "PowerLaw" then
    SpectralModelPowerLaw.from_pset pset
  else if String.eqb (gs_name data) "PowerLaw2" then
    SpectralModelPowerLaw2.from_pset pset
  else if String.eqb (gs_name data) "ExponentialCutoffPowerLaw" then
    SpectralModelExpCutoff.from_pset pset
  else
    Raise (UnknownModelError ("Unknown spectral model: " ++ str_gammacat_spectrum data)).

Definition to_xml (self : spectral_model) : string :=
  "<spectrum type=" ++ dquote ++ xml_type self ++ dquote ++ ">" ++ nl ++
  ParameterSet.to_xml (spectral_parameters self) ++ nl ++
  "    </spectrum>".

End WithRuntime.
End SpectralModel.

(** ** Spatial models *)

Inductive spatial_class := Point | Gauss | Shell.

Record spatial_model := mkSpatial {
  spatial_class_of : spatial_class;
  spatial_parameters : ParameterSet.t
}.

(** [cls(parameters=...)] for a spatial class. *)
Definition new_spatial (cls : spatial_class) (parameters : BaseModel.init_arg)
  : result spatial_model :=
  let* pset := BaseModel.init parameters in
  Ok (mkSpatial cls pset).

(** A model object of any class, with whatever its constructor stored as
    its parameters, and [cls(parameters=...)] on any object. *)
Inductive model_class :=
| SpectralClass (cls : spectral_class)
| SpatialClass (cls : spatial_class).

Record model_object := mkModel {
  model_class_of : model_class;
  model_parameters : BaseModel.py_object
}.

Definition new_model `{PyRuntime} (cls : model_class) (parameters : BaseModel.py_object)
  : result model_object :=
  let* stored := BaseModel.init_object parameters in
  Ok (mkModel cls stored).

Module SpatialModelPoint.
Section WithRuntime.
Context `{PyRuntime}.

Definition xml_source_type : string := "PointSource".
Definition xml_type : string := "Point".
Definition xml_types : list string := [xml_type].

Definition from_gammacat (source : catalog_source) : result spatial_model :=
  let* glon := Param.init "GLON" (NFloat (q_value (glon source))) (q_unit (glon source)) in
  let* glat := Param.init "GLAT" (NFloat (q_value (glat source))) (q_unit (glat source)) in
  let parameters := [glon; glat] in
  new_spatial Point (BaseModel.OfList parameters).

End WithRuntime.
End SpatialModelPoint.

Module SpatialModelGauss.
Section WithRuntime.
Context `{PyRuntime}.

Definition xml_source_type : string := "ExtendedSource".
Definition xml_type : string := "Gauss".
Definition xml_types : list string := [xml_type; "Gaussian"].

Definition from_gammacat (source : catalog_source) : result spatial_model :=
  let* glon := Param.init "GLON" (NFloat (q_value (glon source))) (q_unit (glon source)) in
  let* glat := Param.init "GLAT" (NFloat (q_value (glat source))) (q_unit (glat source)) in
  let* sigma :=
    Param.init "Sigma" (NFloat (q_value (morph_sigma source))) (q_unit (morph_sigma source)) in
  let parameters := [glon; glat; sigma] in
  new_spatial Gauss (BaseModel.OfList parameters).

End WithRuntime.
End SpatialModelGauss.

Module SpatialModelShell.
Section WithRuntime.
Context `{PyRuntime}.

Definition xml_source_type : string := "ExtendedSource".
Definition xml_type : string := "Shell".
Definition xml_types : list string := [xml_type; "RadialShell"].

(** [value=0] is the integer literal; [float(0)] is the float zero. *)
Definition from_gammacat (source : catalog_source) : result spatial_model :=
  let* glon := Param.init "GLON" (NFloat (q_value (glon source))) (q_unit (glon source)) in
  let* glat := Param.init "GLAT" (NFloat (q_value (glat source))) (q_unit (glat source)) in
  let* radius :=
    Param.init "Radius" (NFloat (q_value (morph_sigma source))) (q_unit (morph_sigma source)) in
  let* width := Param.init "Width" (NFloat 0%float) "deg" in
  let parameters := [glon; glat; radius; width] in
  new_spatial Shell (BaseModel.OfList parameters).

End WithRuntime.
End SpatialModelShell.

Module SpatialModel.
Section WithRuntime.
Context `{PyRuntime}.

Definition xml_source_type (self : spatial_model) : string :=
  match spatial_class_of self with
  | Point => SpatialModelPoint.xml_source_type
  | Gauss => SpatialModelGauss.xml_source_type
  | Shell => SpatialModelShell.xml_source_type
  end.

Definition xml_type (self : spatial_model) : string :=
  match spatial_class_of self with
  | Point => SpatialModelPoint.xml_type
  | Gauss => SpatialModelGauss.xml_type
  | Shell => SpatialModelShell.xml_type
  end.

Definition xml_types (self : spatial_model) : list string :=
  match spatial_class_of self with
  | Point => SpatialModelPoint.xml_types
  | Gauss => SpatialModelGauss.xml_types
  | Shell => SpatialModelShell.xml_types
  end.

(** [x in l] for a list of strings. *)
Definition in_list (x : string) (l : list string) : bool :=
  existsb (fun y => String.eqb y x) l.

Definition from_xml_dict (data : xml_value) : result spatial_model :=
  let* model_type := attr data "@type" in
  if in_list model_type SpatialModelPoint.xml_types then
    new_spatial Point (BaseModel.OfList [])
  else if in_list model_type SpatialModelGauss.xml_types then
    new_spatial Gauss (BaseModel.OfList [])
  else if in_list model_type SpatialModelShell.xml_types then
    new_spatial Shell (BaseModel.OfList [])
  else
    Raise (UnknownModelError ("Unknown spatial model: " ++ model_type)).

Definition from_gammacat (source : catalog_source) : result spatial_model :=
  if String.eqb (morph_type source) "point" then
    SpatialModelPoint.from_gammacat source
  else if String.eqb (morph_type source) "gauss" then
    SpatialModelGauss.from_gammacat source
  else if String.eqb (morph_type source) "shell" then
    SpatialModelShell.from_gammacat source
  else
    Raise (UnknownModelError ("Unknown spatial model: " ++ source_str source)).

Definition to_xml (self : spatial_model) : string :=
  "<spatialModel type=" ++ dquote ++ xml_type self ++ dquote ++ ">" ++ nl ++
  ParameterSet.to_xml (spatial_parameters self) ++ nl ++
  "    </spatialModel>".

End WithRuntime.
End SpatialModel.

(** ** SourceModel *)

Module SourceModel.

Record t := mk {
  source_name : string;
  source_type : string;
  spatial_model : spatial_model;
  spectral_model : spectral_model
}.

Section WithRuntime.
Context `{PyRuntime}.

Definition from_gammacat (source : catalog_source) : result t :=
  let source_name := common_name source in
  let* spectral_model := SpectralModel.from_gammacat source in
  let* spatial_model := SpatialModel.from_gammacat source in
  let source_type := SpatialModel.xml_source_type spatial_model in
  Ok (mk source_name source_type spatial_model spectral_model).

Definition from_xml_dict (data : xml_value) : result t :=
  let* source_name := attr data "@name" in
  let* source_type := attr data "@type" in
  let* spectrum := item data "spectrum" in
  let* spectral_model := SpectralModel.from_xml_dict spectrum in
  let* has_radial := contains data "radialModel" in
  let* spatial_model :=
    if has_radial then
      let* radial := item data "radialModel" in
      SpatialModel.from_xml_dict radial
    else
      let* has_spatial := contains data "spatialModel" in
      if has_spatial then
        let* spatial := item data "spatialModel" in
        SpatialModel.from_xml_dict spatial
      else
        Raise (UnknownModelError
                 ("No spatial / radial model found for: " ++ str_xml_value data)) in
  Ok (mk source_name source_type spatial_model spectral_model).

Definition to_xml (self : t) : string :=
  "<source name=" ++ dquote ++ source_name self ++ dquote ++
  " type=" ++ dquote ++ source_type self ++ dquote ++ ">" ++ nl ++
  "    " ++ SpectralModel.to_xml (spectral_model self) ++ nl ++
  "    " ++ SpatialModel.to_xml (spatial_model self) ++ nl ++
  "</source>" ++ nl.

End WithRuntime.
End SourceModel.

(** ** SourceLibrary *)

Module SourceLibrary.

Record t := mk { source_list : list SourceModel.t }.

Section WithRuntime.
Context `{PyRuntime}.

Definition from_list_of_dict (data : xml_value) : result t :=
  let* elements := iter data in
  let* source_list := map_result SourceModel.from_xml_dict elements in
  Ok (mk source_list).

Definition from_xml (xml : string) : result t :=
  let* full_dict := xmltodict.parse xml in
  let* library := item full_dict "source_library" in
  let* sources_dict := item library "source" in
  from_list_of_dict sources_dict.

Definition to_xml (self : t) (title header : string) : string :=
  let sources_xml := String.concat nl (map SourceModel.to_xml (source_list self)) in
  "<?xml version=" ++ dquote ++ "1.0" ++ dquote ++ " ?>" ++ nl ++
  header ++ nl ++
  "<source_library title=" ++ dquote ++ title ++ dquote ++ ">" ++ nl ++
  nl ++
  sources_xml ++ nl ++
  "</source_library>" ++ nl.

(** The defaults of [to_xml]: [title='sources'] and a header of one line
    break. *)
Definition to_xml_default (self : t) : string := to_xml self "sources" nl.

End WithRuntime.
End SourceLibrary.

(** * Properties *)

(** ** A runtime and data for worked examples *)

Module Examples.

#[local] Set Warnings "-inexact-float".

(** The floats that the examples format, with the text Python prints for
    them; anything else is printed as [nan]. *)
Definition table : list (float * string) :=
  [ (0%float, "0.0"); (1%float, "1.0"); (10%float, "10.0");
    (0.1%float, "0.1"); (2.3%float, "2.3"); ((-2.3)%float, "-2.3");
    (1e-12%float, "1e-12"); (184.5575%float, "184.5575");
    ((-5.7844)%float, "-5.7844") ].

Fixpoint format_in (l : list (float * string)) (x : float) : string :=
  match l with
  | [] => "nan"
  | (y, s) :: l' => if PrimFloat.eqb x y then s else format_in l' x
  end.

Fixpoint parse_in (l : list (float * string)) (s : string) : option float :=
  match l with
  | [] => None
  | (y, t) :: l' => if String.eqb s t then Some y else parse_in l' s
  end.

Definition quoted (s : string) : string := "'" ++ s ++ "'".

#[global] Instance runtime : PyRuntime := {|
  str_float := format_in table;
  repr_float := format_in table;
  repr_str := quoted;
  float_of_str := parse_in table;
  str_xml_value := fun _ => "OrderedDict(...)";
  str_gammacat_spectrum := fun d => ("{'name': " ++ quoted (gs_name d) ++ ", ...}")%string
|}.

(** The catalog parameters of the power-law example. *)
Definition powerlaw_pset : ParameterSet.t :=
  ParameterSet.mk
    [ Param.mk "amplitude" 1e-12 "cm-2 s-1 TeV-1";
      Param.mk "index" 2.3 EmptyString;
      Param.mk "reference" 1 "TeV" ].

(** The catalog parameters of the cutoff example, and the same with a
    vanishing [lambda_]. *)
Definition expcutoff_pset (lambda_ : float) : ParameterSet.t :=
  ParameterSet.mk
    [ Param.mk "amplitude" 1e-12 "cm-2 s-1 TeV-1";
      Param.mk "index" 2.3 EmptyString;
      Param.mk "lambda_" lambda_ "1/TeV";
      Param.mk "reference" 1 "TeV" ].

(** A point source with a power-law spectrum, and the libraries of one and
    of two such sources. *)
Definition crab : SourceModel.t :=
  SourceModel.mk "Crab" "PointSource"
    (mkSpatial Point
       (ParameterSet.mk [ Param.mk "GLON" 184.5575 "deg"; Param.mk "GLAT" (-5.7844) "deg" ]))
    (mkSpectral PowerLaw
       (ParameterSet.mk
          [ Param.mk "Prefactor" 1e-12 "cm-2 s-1 TeV-1";
            Param.mk "Index" (-2.3) EmptyString;
            Param.mk "Scale" 1 "TeV" ])).

Definition one_source : SourceLibrary.t := SourceLibrary.mk [crab].

Definition two_sources : SourceLibrary.t := SourceLibrary.mk [crab; crab].

(** What the XML primitive returns for a spatial model written with the
    older type string, with two parameters in the document. *)
Definition gaussian_mapping : xml_value :=
  XDict [("@type", "Gaussian")]
    [("parameter",
      XList [ XDict [("@name", "GLON"); ("@value", "10.0"); ("@unit", "deg")] [];
              XDict [("@name", "Sigma"); ("@value", "0.1"); ("@unit", "deg")] [] ])].


Definition powerlaw_parameters : list gammacat_parameter :=
  [ mkGammacatParameter "amplitude" 1e-12 "cm-2 s-1 TeV-1";
    mkGammacatParameter "index" 2.3 EmptyString;
    mkGammacatParameter "reference" 1 "TeV" ].

(** Catalog sources: one without a spectral model, one with a spectral
    family that has no XML counterpart, and a Gaussian one with a power-law
    spectrum. *)
Definition no_spectrum_source : catalog_source :=
  mkCatalogSource "HESS J1800-240" "point"
    (mkQuantity 10 "deg") (mkQuantity 0.1 "deg") (mkQuantity 0 "deg")
    (inl (ValueError "Spectral model not available"))
    "SourceCatalogObjectGammaCat(HESS J1800-240)".

Definition log_parabola : gammacat_spectrum :=
  mkGammacatSpectrum "LogParabola" powerlaw_parameters.

Definition log_parabola_source : catalog_source :=
  mkCatalogSource "Mkn 421" "point"
    (mkQuantity 10 "deg") (mkQuantity 0.1 "deg") (mkQuantity 0 "deg")
    (inr log_parabola)
    "SourceCatalogObjectGammaCat(Mkn 421)".

Definition gauss_source : catalog_source :=
  mkCatalogSource "Vela X" "gauss"
    (mkQuantity 10 "deg") (mkQuantity 0.1 "deg") (mkQuantity 2.3 "deg")
    (inr (mkGammacatSpectrum "PowerLaw" powerlaw_parameters))
    "SourceCatalogObjectGammaCat(Vela X)".

Definition gauss_model : SourceModel.t :=
  SourceModel.mk "Vela X" "ExtendedSource"
    (mkSpatial Gauss
       (ParameterSet.mk
          [ Param.mk "GLON" 10 "deg"; Param.mk "GLAT" 0.1 "deg";
            Param.mk "Sigma" 2.3 "deg" ]))
    (mkSpectral PowerLaw
       (ParameterSet.mk
          [ Param.mk "Prefactor" 1e-12 "cm-2 s-1 TeV-1";
            Param.mk "Index" (-2.3) EmptyString;
            Param.mk "Scale" 1 "TeV" ])).

(** A source element that calls itself a point source around a Gaussian
    spatial model, as the XML primitive returns it. *)
Definition mismatched_mapping : xml_value :=
  XDict [("@name", "Vela X"); ("@type", "PointSource")]
    [ ("spectrum",
       XDict [("@type", "PowerLaw")]
         [("parameter",
           XList
             [ XDict [("@name", "Prefactor"); ("@value", "1e-12");
                      ("@unit", "cm-2 s-1 TeV-1")] [];
               XDict [("@name", "Index"); ("@value", "-2.3"); ("@unit", EmptyString)] [];
               XDict [("@name", "Scale"); ("@value", "1.0"); ("@unit", "TeV")] [] ])]);
      ("spatialModel", XDict [("@type", "Gauss")] []) ].

Definition mismatched_model : SourceModel.t :=
  SourceModel.mk "Vela X" "PointSource"
    (mkSpatial Gauss (ParameterSet.mk []))
    (SourceModel.spectral_model gauss_model).

End Examples.

(** ** Definitions used to state properties *)

(** A mapping's attributes with the value under [k] replaced by [v]. *)
Definition set_attr (k v : string) (attrs : list (string * string))
  : list (string * string) :=
  map (fun kv => if String.eqb (fst kv) k then (k, v) else kv) attrs.


(** The parameter fragment as the format prescribes it: the attributes
    [name], [value] and [unit], in this order, each in double quotes. *)
Definition parameter_fragment (name value unit : string) : string :=
  "<parameter name=" ++ dquote ++ name ++ dquote ++
  " value=" ++ dquote ++ value ++ dquote ++
  " unit=" ++ dquote ++ unit ++ dquote ++ "/>".

(** A character that an attribute value in double quotes holds as it is
    and that is read back unchanged: any character from the space on (a
    code point from 32 to 255) other than the double quote, [<] and [&].
    Control characters are no XML characters, and a tab, a line feed or a
    carriage return is read back as a space. *)
Definition attr_char_ok (c : ascii) : bool :=
  let n := nat_of_ascii c in
  ((32 <=? n) && negb ((n =? 34) || (n =? 60) || (n =? 38)))%nat.

Fixpoint attr_safe (s : string) : bool :=
  match s with
  | EmptyString => true
  | String c s' => attr_char_ok c && attr_safe s'
  end.

Section Properties.
Context `{rt : PyRuntime}.

(** ** Helper lemmas *)


Lemma lookup_some (name : string) (l : list Param.t) (p : Param.t) :
  ParameterSet.lookup name l = Some p ->
  exists before after,
    l = before ++ p :: after /\ Param.name p = name /\
    Forall (fun q => Param.name q <> name) before.
Proof.
  induction l as [|q l IH]; simpl; intros H.
  - discriminate.
  - destruct (String.eqb_spec name (Param.name q)) as [E|N].
    + injection H as <-. exists [], l. repeat split; auto.
    + destruct (IH H) as (before & after & -> & Hp & Hb).
      exists (q :: before), after. repeat split; auto.
Qed.

Lemma lookup_none (name : string) (l : list Param.t) :
  Forall (fun q => Param.name q <> name) l ->
  ParameterSet.lookup name l = None.
Proof.
  induction 1 as [|q l Hq _ IH]; simpl.
  - reflexivity.
  - destruct (String.eqb_spec name (Param.name q)) as [E|_].
    + exfalso. apply Hq. symmetry. exact E.
    + exact IH.
Qed.

Lemma par_ok_lookup (pset : ParameterSet.t) (name : string) (p : Param.t) :
  ParameterSet.par pset name = Ok p <-> ParameterSet.lookup name (ParameterSet.data pset) = Some p.
Proof.
  unfold ParameterSet.par.
  destruct (ParameterSet.lookup name (ParameterSet.data pset)); split; intros E;
    try discriminate; injection E as ->; reflexivity.
Qed.

(** ** ParameterSet.par *)


Lemma bind_ok {A B : Type} (r : result A) (k : A -> result B) (b : B) :
  bind r k = Ok b -> exists a, r = Ok a /\ k a = Ok b.
Proof.
  destruct r as [a|e]; simpl; intros E.
  - exists a. split; [reflexivity | exact E].
  - discriminate.
Qed.

Lemma map_result_total {A B : Type} (f : A -> result B) (g : A -> B) (l : list A) :
  (forall a, f a = Ok (g a)) -> map_result f l = Ok (map g l).
Proof.
  intros Hf. induction l as [|a l IH]; simpl.
  - reflexivity.
  - rewrite Hf, IH. reflexivity.
Qed.

(** ** Spectral conversions from catalog parameters *)

(** C2: for a set in which [par] finds [amplitude], [index] and
    [reference], the power-law conversion returns, in this order,
    [Prefactor] with the amplitude's value, [Index] with the index's value
    negated and [Scale] with the reference's value, each with the unit of
    the parameter it comes from. *)
Theorem powerlaw_from_pset (pset : ParameterSet.t) (amplitude index reference : Param.t) :
  ParameterSet.par pset "amplitude" = Ok amplitude ->
  ParameterSet.par pset "index" = Ok index ->
  ParameterSet.par pset "reference" = Ok reference ->
  SpectralModelPowerLaw.from_pset pset =
  Ok (mkSpectral PowerLaw
        (ParameterSet.mk
           [ Param.mk "Prefactor" (Param.value amplitude) (Param.unit amplitude);
             Param.mk "Index" (- Param.value index)%float (Param.unit index);
             Param.mk "Scale" (Param.value reference) (Param.unit reference) ])).
Proof.
  intros Ha Hi Hr. unfold SpectralModelPowerLaw.from_pset.
  rewrite Ha; simpl. rewrite Hi; simpl. rewrite Hr; reflexivity.
Qed.

(** C1 (amended): for a set in which [par] finds [amplitude], [index],
    [lambda_] and [reference], and whose [lambda_] is not zero, the cutoff
    conversion returns, in this order, [Prefactor] with the amplitude's
    value, [Index] with the index's value as it is (not negated), [Cutoff]
    with the reciprocal of [lambda_]'s value under [lambda_]'s unit, and
    [Scale] with the reference's value.  When [lambda_] is zero (of either
    sign) the division raises [ZeroDivisionError] and no model is
    returned. *)
Theorem expcutoff_from_pset (pset : ParameterSet.t)
    (amplitude index lambda_ reference : Param.t) :
  ParameterSet.par pset "amplitude" = Ok amplitude ->
  ParameterSet.par pset "index" = Ok index ->
  ParameterSet.par pset "lambda_" = Ok lambda_ ->
  ParameterSet.par pset "reference" = Ok reference ->
  (PrimFloat.eqb (Param.value lambda_) 0 = false ->
   SpectralModelExpCutoff.from_pset pset =
   Ok (mkSpectral ExpCutoff
         (ParameterSet.mk
            [ Param.mk "Prefactor" (Param.value amplitude) (Param.unit amplitude);
              Param.mk "Index" (Param.value index) (Param.unit index);
              Param.mk "Cutoff" (1 / Param.value lambda_)%float (Param.unit lambda_);
              Param.mk "Scale" (Param.value reference) (Param.unit reference) ]))) /\
  (PrimFloat.eqb (Param.value lambda_) 0 = true ->
   SpectralModelExpCutoff.from_pset pset = Raise ZeroDivisionError).
Proof.
  intros Ha Hi Hl Hr. unfold SpectralModelExpCutoff.from_pset, py_truediv.
  rewrite Ha; simpl. rewrite Hi; simpl. rewrite Hl; simpl.
  split; intros Hz; rewrite Hz; simpl.
  - rewrite Hr. reflexivity.
  - reflexivity.
Qed.

(** ** Model constructors *)

(** C9 (amended): a model constructor, spectral or spatial, tests its
    argument with [isinstance].  A [ParameterSet] is kept as it is.  A list
    is wrapped into a [ParameterSet], whatever its elements are.  Every
    object that is neither, a tuple of parameters included, raises
    [ValueError] with the object in the message.  The constructors that the
    conversion code calls with a set or a list of parameters are these
    constructors at such arguments. *)
Theorem model_constructor_isinstance :
  (forall cls data,
     new_model cls (BaseModel.ObjParameterSet data) =
     Ok (mkModel cls (BaseModel.ObjParameterSet data))) /\
  (forall cls elements,
     new_model cls (BaseModel.ObjList elements) =
     Ok (mkModel cls (BaseModel.ObjParameterSet (BaseModel.ObjList elements)))) /\
  (forall cls o,
     BaseModel.isinstance_ParameterSet o = false ->
     BaseModel.isinstance_list o = false ->
     new_model cls o =
     Raise (ValueError
              ("Need list of Parameter or ParameterSet. Invalid input: " ++ BaseModel.str o))) /\
  (forall cls elements,
     new_model cls (BaseModel.ObjTuple elements) =
     Raise (ValueError
              ("Need list of Parameter or ParameterSet. Invalid input: " ++
               BaseModel.str (BaseModel.ObjTuple elements)))) /\
  (forall cls parameters,
     new_model (SpectralClass cls) (BaseModel.object_of_arg parameters) =
     let* m := new_spectral cls parameters in
     Ok (mkModel (SpectralClass cls) (BaseModel.object_of_pset (spectral_parameters m)))) /\
  (forall cls parameters,
     new_model (SpatialClass cls) (BaseModel.object_of_arg parameters) =
     let* m := new_spatial cls parameters in
     Ok (mkModel (SpatialClass cls) (BaseModel.object_of_pset (spatial_parameters m)))).
Proof.
  unfold new_model, BaseModel.init_object. repeat split.
  - intros cls o Hset Hlist. rewrite Hset, Hlist. reflexivity.
  - intros cls [pset|l]; reflexivity.
  - intros cls [pset|l]; reflexivity.
Qed.

(** ** Dispatch on type strings *)

Lemma in_list_In (x : string) (l : list string) :
  SpatialModel.in_list x l = true <-> In x l.
Proof.
  unfold SpatialModel.in_list. rewrite existsb_exists. split.
  - intros (y & Hy & E). apply String.eqb_eq in E. now subst.
  - intros Hx. exists x. split; [exact Hx | apply String.eqb_refl].
Qed.

Lemma in_list_not_In (x : string) (l : list string) :
  ~ In x l -> SpatialModel.in_list x l = false.
Proof.
  intros N. destruct (SpatialModel.in_list x l) eqn:E; [|reflexivity].
  exfalso. apply N. now apply in_list_In.
Qed.

(** C4: the spatial dispatch reads the type string of the mapping and
    compares it with every synonym of each variant: [Point] gives a point
    model, [Gauss] and [Gaussian] a Gauss model, [Shell] and [RadialShell]
    a shell model, each built with an empty parameter list whatever else the
    mapping holds; a string in none of the synonym sets raises
    [UnknownModelError]. *)
Theorem spatial_from_xml_dict_dispatch (data : xml_value) (model_type : string) :
  attr data "@type" = Ok model_type ->
  (In model_type SpatialModelPoint.xml_types ->
   SpatialModel.from_xml_dict data = Ok (mkSpatial Point (ParameterSet.mk []))) /\
  (In model_type SpatialModelGauss.xml_types ->
   SpatialModel.from_xml_dict data = Ok (mkSpatial Gauss (ParameterSet.mk []))) /\
  (In model_type SpatialModelShell.xml_types ->
   SpatialModel.from_xml_dict data = Ok (mkSpatial Shell (ParameterSet.mk []))) /\
  (~ In model_type
       (SpatialModelPoint.xml_types ++ SpatialModelGauss.xml_types ++
        SpatialModelShell.xml_types) ->
   SpatialModel.from_xml_dict data =
   Raise (UnknownModelError ("Unknown spatial model: " ++ model_type))) /\
  SpatialModelPoint.xml_types = ["Point"] /\
  SpatialModelGauss.xml_types = ["Gauss"; "Gaussian"] /\
  SpatialModelShell.xml_types = ["Shell"; "RadialShell"].
Proof.
  intros Ht. unfold SpatialModel.from_xml_dict. rewrite Ht. unfold bind.
  repeat split.
  - intros Hin. apply in_list_In in Hin. rewrite Hin. reflexivity.
  - intros Hin.
    assert (Hp : SpatialModel.in_list model_type SpatialModelPoint.xml_types = false).
    { apply in_list_not_In. intros Hp.
      destruct Hin as [<-|[<-|[]]]; destruct Hp as [E|[]]; discriminate E. }
    apply in_list_In in Hin. rewrite Hp, Hin. reflexivity.
  - intros Hin.
    assert (Hp : SpatialModel.in_list model_type SpatialModelPoint.xml_types = false).
    { apply in_list_not_In. intros Hp.
      destruct Hin as [<-|[<-|[]]]; destruct Hp as [E|[]]; discriminate E. }
    assert (Hg : SpatialModel.in_list model_type SpatialModelGauss.xml_types = false).
    { apply in_list_not_In. intros Hg.
      destruct Hin as [<-|[<-|[]]]; destruct Hg as [E|[E|[]]]; discriminate E. }
    apply in_list_In in Hin. rewrite Hp, Hg, Hin. reflexivity.
  - intros Hnone.
    rewrite !in_list_not_In; [reflexivity | | |];
      intros Hin; apply Hnone; rewrite !in_app_iff; auto.
Qed.

(** C5: the catalog dispatch raises two different exceptions.  When the
    catalog's [to_dict()] raises a [ValueError], the source has no spectral
    model and [NoDataAvailableError] is raised with the source; when the
    dictionary's family name is none of [PowerLaw], [PowerLaw2] and
    [ExponentialCutoffPowerLaw], [UnknownModelError] is raised with a
    message that ends with the dictionary.  The two never coincide.  An
    exception of the catalog that is no [ValueError] passes through. *)
Theorem spectral_from_gammacat_errors (source : catalog_source) :
  (forall e,
     spectral_model_to_dict source = inl e -> is_ValueError e = true ->
     SpectralModel.from_gammacat source = Raise (NoDataAvailableError source)) /\
  (forall data,
     spectral_model_to_dict source = inr data ->
     ~ In (gs_name data) ["PowerLaw"; "PowerLaw2"; "ExponentialCutoffPowerLaw"] ->
     SpectralModel.from_gammacat source =
     Raise (UnknownModelError ("Unknown spectral model: " ++ str_gammacat_spectrum data))) /\
  (forall msg, NoDataAvailableError source <> Base (UnknownModelError msg)) /\
  (forall e,
     spectral_model_to_dict source = inl e -> is_ValueError e = false ->
     SpectralModel.from_gammacat source = Raise e).
Proof.
  unfold SpectralModel.from_gammacat. split; [|split; [|split]].
  - intros e He Hv. rewrite He, Hv. reflexivity.
  - intros data Hd Hname. rewrite Hd. unfold bind at 1.
    unfold ParameterSet.from_list_of_dict_gammacat.
    rewrite (map_result_total _
               (fun d => Param.mk (gc_name d) (gc_val d) (gc_unit d)))
      by reflexivity.
    unfold bind.
    destruct (String.eqb_spec (gs_name data) "PowerLaw") as [E|_];
      [exfalso; apply Hname; rewrite E; simpl; auto|].
    destruct (String.eqb_spec (gs_name data) "PowerLaw2") as [E|_];
      [exfalso; apply Hname; rewrite E; simpl; auto|].
    destruct (String.eqb_spec (gs_name data) "ExponentialCutoffPowerLaw") as [E|_];
      [exfalso; apply Hname; rewrite E; simpl; auto|].
    reflexivity.
  - intros msg E. discriminate E.
  - intros e He Hv. rewrite He, Hv. reflexivity.
Qed.

(** ** SourceModel *)

Lemma assoc_set_attr_same (k v : string) (attrs : list (string * string)) (old : string) :
  assoc k attrs = Some old -> assoc k (set_attr k v attrs) = Some v.
Proof.
  induction attrs as [|[k' v'] attrs IH]; simpl; intros H.
  - discriminate.
  - destruct (String.eqb_spec k' k) as [->|N].
    + simpl. rewrite String.eqb_refl. reflexivity.
    + simpl. destruct (String.eqb_spec k k') as [E|_].
      * exfalso. apply N. symmetry. exact E.
      * apply IH. exact H.
Qed.

Lemma assoc_set_attr_other (k v k' : string) (attrs : list (string * string)) :
  k' <> k -> assoc k' (set_attr k v attrs) = assoc k' attrs.
Proof.
  intros N. induction attrs as [|[k0 v0] attrs IH]; simpl.
  - reflexivity.
  - destruct (String.eqb_spec k0 k) as [->|N0]; simpl.
    + destruct (String.eqb_spec k' k) as [E|_]; [contradiction|exact IH].
    + rewrite IH. reflexivity.
Qed.

Lemma keys_set_attr (k v : string) (attrs : list (string * string))
    (items : list (string * xml_value)) :
  keys (set_attr k v attrs) items = keys attrs items.
Proof.
  unfold keys. f_equal. induction attrs as [|[k0 v0] attrs IH]; simpl.
  - reflexivity.
  - rewrite IH. destruct (String.eqb_spec k0 k) as [->|_]; reflexivity.
Qed.

Lemma source_from_xml_dict_is_mapping (data : xml_value) (m : SourceModel.t) :
  SourceModel.from_xml_dict data = Ok m -> exists attrs items, data = XDict attrs items.
Proof.
  destruct data as [|s|l|attrs items]; try discriminate.
  intros _. now exists attrs, items.
Qed.

(** C8: a source model built from a catalog source takes its
    [source_type] from the spatial model that was built for it:
    [PointSource] for the morphology [point], [ExtendedSource] for [gauss]
    and [shell].  A source model parsed from XML takes [source_type] from
    the type attribute as written: with any other string in the attribute
    the document is accepted just the same, and only [source_type]
    differs. *)
Theorem source_type_derived_or_verbatim :
  (forall source m,
     SourceModel.from_gammacat source = Ok m ->
     SourceModel.source_type m = SpatialModel.xml_source_type (SourceModel.spatial_model m) /\
     (morph_type source = "point" /\
      spatial_class_of (SourceModel.spatial_model m) = Point /\
      SourceModel.source_type m = "PointSource"
      \/
      morph_type source = "gauss" /\
      spatial_class_of (SourceModel.spatial_model m) = Gauss /\
      SourceModel.source_type m = "ExtendedSource"
      \/
      morph_type source = "shell" /\
      spatial_class_of (SourceModel.spatial_model m) = Shell /\
      SourceModel.source_type m = "ExtendedSource")) /\
  (forall data m,
     SourceModel.from_xml_dict data = Ok m ->
     attr data "@type" = Ok (SourceModel.source_type m)) /\
  (forall attrs items m t,
     SourceModel.from_xml_dict (XDict attrs items) = Ok m ->
     SourceModel.from_xml_dict (XDict (set_attr "@type" t attrs) items) =
     Ok (SourceModel.mk (SourceModel.source_name m) t
           (SourceModel.spatial_model m) (SourceModel.spectral_model m))).
Proof.
  split; [|split].
  - intros source m. unfold SourceModel.from_gammacat.
    destruct (SpectralModel.from_gammacat source) as [spectral|e]; [|discriminate].
    unfold bind at 1. unfold SpatialModel.from_gammacat.
    destruct (String.eqb_spec (morph_type source) "point") as [Ep|_];
      [|destruct (String.eqb_spec (morph_type source) "gauss") as [Eg|_];
        [|destruct (String.eqb_spec (morph_type source) "shell") as [Es|_]]];
      simpl; intros E; try discriminate E; injection E as E; subst m; simpl;
      split; auto 10.
  - intros data m. unfold SourceModel.from_xml_dict.
    destruct (attr data "@name") as [name|e]; [|discriminate].
    destruct (attr data "@type") as [type|e]; [|discriminate].
    unfold bind at 1 2. intros E.
    apply bind_ok in E as (spectrum & _ & E).
    apply bind_ok in E as (spectral & _ & E).
    apply bind_ok in E as (has_radial & _ & E).
    apply bind_ok in E as (spatial & _ & E).
    injection E as <-. reflexivity.
  - intros attrs items m t H. unfold SourceModel.from_xml_dict in *.
    cbn [attr contains item] in *.
    rewrite keys_set_attr.
    rewrite (assoc_set_attr_other "@type" t "@name") by discriminate.
    destruct (assoc "@name" attrs) as [name|]; [|discriminate].
    destruct (assoc "@type" attrs) as [type|] eqn:Et; [|discriminate].
    rewrite (assoc_set_attr_same _ t _ _ Et).
    cbn [bind] in *.
    destruct (assoc "spectrum" items) as [spectrum|]; [|discriminate].
    cbn [bind] in *.
    destruct (SpectralModel.from_xml_dict spectrum) as [spectral|e]; [|discriminate].
    cbn [bind] in *.
    destruct (existsb (String.eqb "radialModel") (keys attrs items)).
    + destruct (assoc "radialModel" items) as [radial|]; [|discriminate].
      cbn [bind] in *.
      destruct (SpatialModel.from_xml_dict radial) as [spatial|e]; [|discriminate].
      cbn [bind] in *. injection H as <-. reflexivity.
    + cbn [bind] in *.
      destruct (existsb (String.eqb "spatialModel") (keys attrs items)); [|discriminate].
      destruct (assoc "spatialModel" items) as [spatial_data|]; [|discriminate].
      cbn [bind] in *.
      destruct (SpatialModel.from_xml_dict spatial_data) as [spatial|e]; [|discriminate].
      cbn [bind] in *. injection H as <-. reflexivity.
Qed.

(** ** SourceLibrary *)

Lemma map_result_Forall2 {A B : Type} (f : A -> result B) (l : list A) (bs : list B) :
  map_result f l = Ok bs <-> Forall2 (fun a b => f a = Ok b) l bs.
Proof.
  revert bs. induction l as [|a l IH]; intros bs; simpl.
  - split.
    + intros E. injection E as <-. constructor.
    + intros F. inversion F. reflexivity.
  - split.
    + intros E. apply bind_ok in E as (b & Hb & E).
      apply bind_ok in E as (bs' & Hbs & E). injection E as <-.
      constructor; [exact Hb | now apply IH].
    + intros F. inversion F as [|a' b l' bs' Hb Hbs]; subst.
      rewrite Hb. apply IH in Hbs. rewrite Hbs. reflexivity.
Qed.

Lemma source_from_xml_dict_str (s : string) :
  SourceModel.from_xml_dict (XStr s) = Raise TypeError.
Proof. reflexivity. Qed.

Lemma from_list_of_dict_mapping (attrs : list (string * string))
    (items : list (string * xml_value)) :
  SourceLibrary.from_list_of_dict (XDict attrs items) =
  match keys attrs items with
  | [] => Ok (SourceLibrary.mk [])
  | _ :: _ => Raise TypeError
  end.
Proof.
  unfold SourceLibrary.from_list_of_dict. cbn [iter bind].
  destruct (keys attrs items) as [|k ks]; reflexivity.
Qed.

(** C10: [from_list_of_dict] iterates over what it is given and converts
    every element it meets with [SourceModel.from_xml_dict], in order.
    Given a list of mappings it converts the mappings one by one.  Given a
    single mapping, as the XML primitive returns for a lone source element,
    it meets the mapping's keys, which are strings; the conversion of a
    string raises [TypeError], so a mapping with any key at all makes the
    whole call raise, and in no case is the result a library of one
    source. *)
Theorem from_list_of_dict_iterates_argument :
  (forall l lib,
     SourceLibrary.from_list_of_dict (XList l) = Ok lib <->
     Forall2 (fun d m => SourceModel.from_xml_dict d = Ok m) l
       (SourceLibrary.source_list lib)) /\
  (forall attrs items,
     SourceLibrary.from_list_of_dict (XDict attrs items) =
     let* source_list :=
       map_result SourceModel.from_xml_dict (map XStr (keys attrs items)) in
     Ok (SourceLibrary.mk source_list)) /\
  (forall key, SourceModel.from_xml_dict (XStr key) = Raise TypeError) /\
  (forall attrs items,
     keys attrs items <> [] ->
     SourceLibrary.from_list_of_dict (XDict attrs items) = Raise TypeError) /\
  (forall attrs items m,
     SourceLibrary.from_list_of_dict (XDict attrs items) <> Ok (SourceLibrary.mk [m])) /\
  (forall xml full library attrs items m,
     xmltodict.parse xml = Ok full ->
     item full "source_library" = Ok library ->
     item library "source" = Ok (XDict attrs items) ->
     SourceLibrary.from_xml xml <> Ok (SourceLibrary.mk [m])).
Proof.
  repeat split.
  - unfold SourceLibrary.from_list_of_dict. cbn [iter bind]. intros E.
    apply bind_ok in E as (sl & Hsl & E). injection E as <-.
    now apply map_result_Forall2.
  - unfold SourceLibrary.from_list_of_dict. cbn [iter bind]. intros F.
    apply map_result_Forall2 in F. rewrite F. destruct lib. reflexivity.
  - intros attrs items Hkeys. rewrite from_list_of_dict_mapping.
    destruct (keys attrs items); [contradiction|reflexivity].
  - intros attrs items m. rewrite from_list_of_dict_mapping.
    destruct (keys attrs items); discriminate.
  - intros xml full library attrs items m Hparse Hlib Hsrc.
    unfold SourceLibrary.from_xml. rewrite Hparse. cbn [bind].
    rewrite Hlib. cbn [bind]. rewrite Hsrc. cbn [bind].
    rewrite from_list_of_dict_mapping.
    destruct (keys attrs items); discriminate.
Qed.

(** ** Reading back what was written *)

Lemma scan_app (m : xmltodict.mode) (s1 s2 : string) :
  xmltodict.scan m (s1 ++ s2) =
  let (m1, out1) := xmltodict.scan m s1 in
  let (m2, out2) := xmltodict.scan m1 s2 in
  (m2, out1 ++ out2).
Proof.
  revert m. induction s1 as [|c s1 IH]; intros m; simpl.
  - destruct (xmltodict.scan m s2). reflexivity.
  - destruct (xmltodict.step m c) as [m1 out1]. rewrite IH.
    destruct (xmltodict.scan m1 s1) as [m2 out2].
    destruct (xmltodict.scan m2 s2) as [m3 out3].
    now rewrite app_assoc.
Qed.

Lemma scan_seq (m m1 m2 : xmltodict.mode) (s1 s2 : string)
    (out1 out2 : list xmltodict.event) :
  xmltodict.scan m s1 = (m1, out1) ->
  xmltodict.scan m1 s2 = (m2, out2) ->
  xmltodict.scan m (s1 ++ s2) = (m2, out1 ++ out2).
Proof. intros H1 H2. now rewrite scan_app, H1, H2. Qed.

Lemma append_snoc (s : string) (c : ascii) (s' : string) :
  (xmltodict.snoc s c ++ s' = s ++ String c s')%string.
Proof.
  unfold xmltodict.snoc. induction s as [|a s IH]; simpl.
  - reflexivity.
  - now rewrite IH.
Qed.

Lemma append_empty_r (s : string) : (s ++ EmptyString)%string = s.
Proof. induction s as [|a s IH]; simpl; [reflexivity | now rewrite IH]. Qed.

Lemma step_attr_value (name : string) (attrs : list (string * string)) (key val : string)
    (c : ascii) :
  attr_char_ok c = true ->
  xmltodict.step (xmltodict.AttrValue name attrs key dquote_char val) c =
  (xmltodict.AttrValue name attrs key dquote_char (xmltodict.snoc val c), []).
Proof.
  unfold attr_char_ok, xmltodict.step, xmltodict.is_legal, xmltodict.attr_value_step,
    xmltodict.code.
  intros H. apply andb_true_iff in H as [Hge H]. apply negb_true_iff in H.
  apply orb_false_iff in H as [H H38]. apply orb_false_iff in H as [H34 H60].
  rewrite Hge, !orb_true_r. cbn [negb].
  destruct (Ascii.eqb_spec c dquote_char) as [->|_]; [discriminate H34|].
  rewrite H60, H38. cbn [orb].
  destruct (Nat.eqb_spec (nat_of_ascii c) 13) as [E|_]; [rewrite E in Hge; discriminate|].
  destruct (Nat.eqb_spec (nat_of_ascii c) 9) as [E|_]; [rewrite E in Hge; discriminate|].
  destruct (Nat.eqb_spec (nat_of_ascii c) 10) as [E|_]; [rewrite E in Hge; discriminate|].
  reflexivity.
Qed.

Lemma scan_attr_value (name : string) (attrs : list (string * string)) (key val s : string) :
  attr_safe s = true ->
  xmltodict.scan (xmltodict.AttrValue name attrs key dquote_char val) s =
  (xmltodict.AttrValue name attrs key dquote_char (val ++ s)%string, []).
Proof.
  revert val. induction s as [|c s IH]; intros val H;
    cbn [xmltodict.scan attr_safe] in *.
  - now rewrite append_empty_r.
  - apply andb_true_iff in H as [Hc Hs].
    rewrite (step_attr_value _ _ _ _ _ Hc), (IH _ Hs), append_snoc. reflexivity.
Qed.

(** The events of a parameter fragment written after any text of
    spaces. *)
Lemma scan_parameter (indent name value unit : string) :
  attr_safe name = true -> attr_safe value = true -> attr_safe unit = true ->
  xmltodict.scan (xmltodict.Content indent) (parameter_fragment name value unit) =
  (xmltodict.Content EmptyString,
   match indent with EmptyString => [] | _ => [xmltodict.Characters indent] end ++
   [ xmltodict.StartElement "parameter" [("name", name); ("value", value); ("unit", unit)];
     xmltodict.EndElement "parameter" ]).
Proof.
  intros Hn Hv Hu.
  change (parameter_fragment name value unit)
    with (("<parameter name=" ++ dquote) ++ name ++
          (dquote ++ " value=" ++ dquote) ++ value ++
          (dquote ++ " unit=" ++ dquote) ++ unit ++
          (dquote ++ "/>"))%string.
  rewrite scan_app.
  replace (xmltodict.scan (xmltodict.Content indent) ("<parameter name=" ++ dquote))
    with (xmltodict.AttrValue "parameter" [] "name" dquote_char EmptyString,
          match indent with EmptyString => [] | _ => [xmltodict.Characters indent] end)
    by (destruct indent; reflexivity).
  cbv beta iota.
  rewrite scan_app, (scan_attr_value _ _ _ _ _ Hn).
  cbv beta iota. rewrite scan_app.
  change (xmltodict.scan
            (xmltodict.AttrValue "parameter" [] "name" dquote_char (EmptyString ++ name))
            (dquote ++ " value=" ++ dquote))
    with (xmltodict.AttrValue "parameter" [("name", name)] "value" dquote_char EmptyString,
          @nil xmltodict.event).
  cbv beta iota.
  rewrite scan_app, (scan_attr_value _ _ _ _ _ Hv).
  cbv beta iota. rewrite scan_app.
  change (xmltodict.scan
            (xmltodict.AttrValue "parameter" [("name", name)] "value" dquote_char
               (EmptyString ++ value))
            (dquote ++ " unit=" ++ dquote))
    with (xmltodict.AttrValue "parameter" [("name", name); ("value", value)] "unit"
            dquote_char EmptyString,
          @nil xmltodict.event).
  cbv beta iota.
  rewrite scan_app, (scan_attr_value _ _ _ _ _ Hu).
  cbv beta iota.
  change (xmltodict.scan
            (xmltodict.AttrValue "parameter" [("name", name); ("value", value)] "unit"
               dquote_char (EmptyString ++ unit))
            (dquote ++ "/>"))
    with (xmltodict.Content EmptyString,
          [ xmltodict.StartElement "parameter"
              [("name", name); ("value", value); ("unit", unit)];
            xmltodict.EndElement "parameter" ]).
  cbv beta iota. reflexivity.
Qed.

(** C7: [to_xml] renders a parameter as the indentation followed by the
    fragment with the attributes [name], [value] and [unit], in this order
    and in double quotes, holding the name, the formatted value and the
    unit.  When the three texts can stand in an attribute value, reading
    the rendered text back gives a [parameter] mapping with exactly these
    three attributes, and [from_dict_xml] turns that mapping into the
    parameter with the same name and unit and with the float read from the
    formatted value: the same parameter again as soon as formatting and
    reading a float are inverse on the value.  A mapping without a unit
    attribute gives the empty unit. *)
Theorem parameter_xml_round_trip (name : string) (value : float) (unit : string) :
  attr_safe name = true ->
  attr_safe (str_float value) = true ->
  attr_safe unit = true ->
  Param.to_xml (Param.mk name value unit) =
  ("        " ++ parameter_fragment name (str_float value) unit)%string /\
  xmltodict.parse (Param.to_xml (Param.mk name value unit)) =
  Ok (XDict []
        [("parameter",
          XDict [("@name", name); ("@value", str_float value); ("@unit", unit)] [])]) /\
  Param.from_dict_xml
    (XDict [("@name", name); ("@value", str_float value); ("@unit", unit)] []) =
  (let* x := py_float (NStr (str_float value)) in Ok (Param.mk name x unit)) /\
  (float_of_str (str_float value) = Some value ->
   Param.from_dict_xml
     (XDict [("@name", name); ("@value", str_float value); ("@unit", unit)] []) =
   Ok (Param.mk name value unit)) /\
  (forall attrs items p,
     assoc "@unit" attrs = None ->
     Param.from_dict_xml (XDict attrs items) = Ok p ->
     Param.unit p = EmptyString).
Proof.
  intros Hn Hv Hu.
  assert (Hxml : Param.to_xml (Param.mk name value unit) =
                 ("        " ++ parameter_fragment name (str_float value) unit)%string)
    by reflexivity.
  split; [exact Hxml|]. split; [|split; [|split]].
  - rewrite Hxml. unfold xmltodict.parse.
    change (xmltodict.body
              ("        " ++ parameter_fragment name (str_float value) unit))
      with ("        " ++ parameter_fragment name (str_float value) unit)%string.
    rewrite scan_app.
    change (xmltodict.scan (xmltodict.Content EmptyString) "        ")
      with (xmltodict.Content "        ", @nil xmltodict.event).
    cbv beta iota. rewrite (scan_parameter _ _ _ _ Hn Hv Hu). reflexivity.
  - reflexivity.
  - intros Hf. unfold Param.from_dict_xml, Param.init, py_float.
    cbn [attr_get attr assoc String.eqb Ascii.eqb Bool.eqb bind].
    rewrite Hf. reflexivity.
  - intros attrs items p Hnone. unfold Param.from_dict_xml.
    cbn [attr_get attr]. rewrite Hnone. cbn [bind].
    destruct (assoc "@name" attrs) as [n|]; [|discriminate].
    destruct (assoc "@value" attrs) as [v|]; [|discriminate].
    cbn [bind]. unfold Param.init. intros E.
    apply bind_ok in E as (x & _ & E). injection E as <-. reflexivity.
Qed.

End Properties.

(** * Worked examples *)

Section WorkedExamples.

#[local] Set Warnings "-inexact-float".

(** The power-law example: amplitude 1e-12, index 2.3 and reference 1 TeV
    give [Prefactor] 1e-12, [Index] -2.3 and [Scale] 1 TeV. *)
Lemma powerlaw_from_pset_example :
  SpectralModelPowerLaw.from_pset Examples.powerlaw_pset =
  Ok (mkSpectral PowerLaw
        (ParameterSet.mk
           [ Param.mk "Prefactor" 1e-12 "cm-2 s-1 TeV-1";
             Param.mk "Index" (-2.3) EmptyString;
             Param.mk "Scale" 1 "TeV" ])).
Proof.
  exact (powerlaw_from_pset Examples.powerlaw_pset
           (Param.mk "amplitude" 1e-12 "cm-2 s-1 TeV-1")
           (Param.mk "index" 2.3 EmptyString)
           (Param.mk "reference" 1 "TeV")
           eq_refl eq_refl eq_refl).
Defined.

(** The cutoff example: a [lambda_] of 0.1 per TeV gives a [Cutoff] of 10
    under the same unit, and the index stays 2.3. *)
Lemma expcutoff_from_pset_example :
  SpectralModelExpCutoff.from_pset (Examples.expcutoff_pset 0.1) =
  Ok (mkSpectral ExpCutoff
        (ParameterSet.mk
           [ Param.mk "Prefactor" 1e-12 "cm-2 s-1 TeV-1";
             Param.mk "Index" 2.3 EmptyString;
             Param.mk "Cutoff" 10 "1/TeV";
             Param.mk "Scale" 1 "TeV" ])).
Proof.
  exact (proj1 (expcutoff_from_pset (Examples.expcutoff_pset 0.1)
                  (Param.mk "amplitude" 1e-12 "cm-2 s-1 TeV-1")
                  (Param.mk "index" 2.3 EmptyString)
                  (Param.mk "lambda_" 0.1 "1/TeV")
                  (Param.mk "reference" 1 "TeV")
                  eq_refl eq_refl eq_refl eq_refl) eq_refl).
Defined.

(** A set that holds all four parameters, with a [lambda_] of zero: the
    conversion raises [ZeroDivisionError] and returns no model, so it does
    not return the model with the reciprocal as [Cutoff]. *)
Lemma expcutoff_zero_lambda_raises :
  ParameterSet.par (Examples.expcutoff_pset 0) "amplitude" =
    Ok (Param.mk "amplitude" 1e-12 "cm-2 s-1 TeV-1") /\
  ParameterSet.par (Examples.expcutoff_pset 0) "index" =
    Ok (Param.mk "index" 2.3 EmptyString) /\
  ParameterSet.par (Examples.expcutoff_pset 0) "lambda_" =
    Ok (Param.mk "lambda_" 0 "1/TeV") /\
  ParameterSet.par (Examples.expcutoff_pset 0) "reference" =
    Ok (Param.mk "reference" 1 "TeV") /\
  SpectralModelExpCutoff.from_pset (Examples.expcutoff_pset 0) = Raise ZeroDivisionError /\
  SpectralModelExpCutoff.from_pset (Examples.expcutoff_pset 0) <>
  Ok (mkSpectral ExpCutoff
        (ParameterSet.mk
           [ Param.mk "Prefactor" 1e-12 "cm-2 s-1 TeV-1";
             Param.mk "Index" 2.3 EmptyString;
             Param.mk "Cutoff" (1 / 0)%float "1/TeV";
             Param.mk "Scale" 1 "TeV" ])).
Proof.
  repeat split; try reflexivity. discriminate.
Qed.

(** A tuple of two parameters is an ordered sequence of parameters, and
    the constructor raises; a list that holds [None] and a string is no
    sequence of parameters, and the constructor wraps it. *)
Lemma model_constructor_sequence_counterexample :
  new_model (SpectralClass PowerLaw)
    (BaseModel.ObjTuple
       [ BaseModel.ObjParameter (Param.mk "Prefactor" 1e-12 "cm-2 s-1 TeV-1");
         BaseModel.ObjParameter (Param.mk "Index" (-2.3) EmptyString) ]) =
  Raise (ValueError
           ("Need list of Parameter or ParameterSet. Invalid input: " ++
            "(Parameter(name='Prefactor', value=1e-12, unit='cm-2 s-1 TeV-1'), " ++
            "Parameter(name='Index', value=-2.3, unit=''))")) /\
  new_model (SpectralClass PowerLaw)
    (BaseModel.ObjList [BaseModel.ObjNone; BaseModel.ObjStr "index"]) =
  Ok (mkModel (SpectralClass PowerLaw)
        (BaseModel.ObjParameterSet
           (BaseModel.ObjList [BaseModel.ObjNone; BaseModel.ObjStr "index"]))).
Proof. split; reflexivity. Qed.

(** The older type string [Gaussian] gives a Gauss model without
    parameters, although the document lists two. *)
Lemma spatial_from_xml_dict_gaussian :
  SpatialModel.from_xml_dict Examples.gaussian_mapping =
  Ok (mkSpatial Gauss (ParameterSet.mk [])).
Proof.
  exact (proj1 (proj2 (spatial_from_xml_dict_dispatch Examples.gaussian_mapping "Gaussian"
                         eq_refl))
           (or_intror (or_introl eq_refl))).
Defined.

(** The parameter [Index] of value -2.3 and empty unit: its rendering,
    the mapping read back from it, and the parameter recovered. *)
Lemma parameter_xml_round_trip_example :
  Param.to_xml (Param.mk "Index" (-2.3) EmptyString) =
  ("        " ++ parameter_fragment "Index" "-2.3" EmptyString)%string /\
  xmltodict.parse (Param.to_xml (Param.mk "Index" (-2.3) EmptyString)) =
  Ok (XDict []
        [("parameter",
          XDict [("@name", "Index"); ("@value", "-2.3"); ("@unit", EmptyString)] [])]) /\
  Param.from_dict_xml
    (XDict [("@name", "Index"); ("@value", "-2.3"); ("@unit", EmptyString)] []) =
  Ok (Param.mk "Index" (-2.3) EmptyString).
Proof.
  pose proof (parameter_xml_round_trip "Index" (-2.3) EmptyString eq_refl eq_refl eq_refl)
    as (Hxml & Hparse & _ & Hback & _).
  exact (conj Hxml (conj Hparse (Hback eq_refl))).
Defined.

(** C3: the library of one point source with a power-law spectrum is
    written and read back.  The text holds a single source element, for
    which the XML primitive returns a mapping and not a list of one
    mapping; iterating over it meets the key of the name attribute, and
    the conversion of that string raises [TypeError].  No library is
    returned.  With two sources the same round trip returns both, with their
    names, types and spectral parameters, and with spatial models that have
    lost their parameters. *)
Theorem one_source_round_trip_raises :
  SourceLibrary.from_xml (SourceLibrary.to_xml_default Examples.one_source) =
  Raise TypeError /\
  (exists attrs items,
     (let* full := xmltodict.parse (SourceLibrary.to_xml_default Examples.one_source) in
      let* library := item full "source_library" in
      item library "source") = Ok (XDict attrs items)) /\
  SourceLibrary.from_xml (SourceLibrary.to_xml_default Examples.two_sources) =
  Ok (SourceLibrary.mk
        [ SourceModel.mk "Crab" "PointSource"
            (mkSpatial Point (ParameterSet.mk []))
            (SourceModel.spectral_model Examples.crab);
          SourceModel.mk "Crab" "PointSource"
            (mkSpatial Point (ParameterSet.mk []))
            (SourceModel.spectral_model Examples.crab) ]).
Proof.
  split; [|split].
  - vm_compute. reflexivity.
  - eexists. eexists. vm_compute. reflexivity.
  - vm_compute. reflexivity.
Qed.


(** A source without spectral data raises [NoDataAvailableError]; a source
    with the family [LogParabola] raises [UnknownModelError]. *)
Lemma spectral_from_gammacat_errors_example :
  SpectralModel.from_gammacat Examples.no_spectrum_source =
  Raise (NoDataAvailableError Examples.no_spectrum_source) /\
  SpectralModel.from_gammacat Examples.log_parabola_source =
  Raise (UnknownModelError
           ("Unknown spectral model: " ++ str_gammacat_spectrum Examples.log_parabola)).
Proof.
  split.
  - exact (proj1 (spectral_from_gammacat_errors Examples.no_spectrum_source)
             (ValueError "Spectral model not available") eq_refl eq_refl).
  - apply (proj1 (proj2 (spectral_from_gammacat_errors Examples.log_parabola_source))
             Examples.log_parabola eq_refl).
    intros [E|[E|[E|[]]]]; discriminate E.
Defined.

(** A Gaussian catalog source becomes an extended source; a document that
    calls a Gaussian model a point source is read as written. *)
Lemma source_type_example :
  SourceModel.from_gammacat Examples.gauss_source = Ok Examples.gauss_model /\
  SourceModel.source_type Examples.gauss_model =
  SpatialModel.xml_source_type (SourceModel.spatial_model Examples.gauss_model) /\
  SourceModel.from_xml_dict Examples.mismatched_mapping = Ok Examples.mismatched_model /\
  attr Examples.mismatched_mapping "@type" =
  Ok (SourceModel.source_type Examples.mismatched_model) /\
  SourceModel.source_type Examples.mismatched_model <>
  SpatialModel.xml_source_type (SourceModel.spatial_model Examples.mismatched_model).
Proof.
  pose proof source_type_derived_or_verbatim as (Hcat & Hxml & _).
  split; [reflexivity|].
  split; [exact (proj1 (Hcat Examples.gauss_source Examples.gauss_model eq_refl))|].
  split; [reflexivity|].
  split; [exact (Hxml Examples.mismatched_mapping Examples.mismatched_model eq_refl)|].
  discriminate.
Defined.

(** The text of the library of one source is not read back as a library
    of one source. *)
Lemma one_source_document_example :
  SourceLibrary.from_xml (SourceLibrary.to_xml_default Examples.one_source) <>
  Ok (SourceLibrary.mk [Examples.crab]).
Proof.
  eapply (proj2 (proj2 (proj2 (proj2 (proj2 from_list_of_dict_iterates_argument))))).
  - vm_compute. reflexivity.
  - vm_compute. reflexivity.
  - vm_compute. reflexivity.
Defined.

End WorkedExamples.

(** * Further properties of the conversion code *)

(** ** Definitions used to state them *)

(** The names a spectral class looks up in the catalog's parameter set, in
    the order of the look-ups. *)
Definition required (cls : spectral_class) : list string :=
  match cls with
  | PowerLaw => ["amplitude"; "index"; "reference"]
  | PowerLaw2 => ["amplitude"; "index"; "emin"; "emax"]
  | ExpCutoff => ["amplitude"; "index"; "lambda_"; "reference"]
  end.

(** [cls.from_pset], by class. *)
Definition from_pset_of `{PyRuntime} (cls : spectral_class)
  : ParameterSet.t -> result spectral_model :=
  match cls with
  | PowerLaw => SpectralModelPowerLaw.from_pset
  | PowerLaw2 => SpectralModelPowerLaw2.from_pset
  | ExpCutoff => SpectralModelExpCutoff.from_pset
  end.

(** A set has a member of the given name; a set has none. *)
Definition has (name : string) (pset : ParameterSet.t) : Prop :=
  exists p, In p (ParameterSet.data pset) /\ Param.name p = name.

Definition lacks (name : string) (pset : ParameterSet.t) : Prop :=
  forall p, In p (ParameterSet.data pset) -> Param.name p <> name.

(** The catalog's parameter list as a parameter set: same order, same
    names, values and units. *)
Definition catalog_pset (data : gammacat_spectrum) : ParameterSet.t :=
  ParameterSet.mk
    (map (fun d => Param.mk (gc_name d) (gc_val d) (gc_unit d)) (gs_parameters data)).

(** Every attribute key of a mapping carries the prefix [@], as the XML
    primitive writes it. *)
Definition attrs_prefixed (attrs : list (string * string)) : Prop :=
  Forall (fun kv => prefixb "@" (fst kv) = true) attrs.

(** What can be written into XML and read back: the name, the formatted
    value and the unit of a parameter can stand in an attribute value. *)
Definition param_safe `{PyRuntime} (p : Param.t) : bool :=
  attr_safe (Param.name p) && attr_safe (str_float (Param.value p)) &&
  attr_safe (Param.unit p).

Definition pset_safe `{PyRuntime} (pset : ParameterSet.t) : bool :=
  forallb param_safe (ParameterSet.data pset).

Definition source_safe `{PyRuntime} (s : SourceModel.t) : bool :=
  attr_safe (SourceModel.source_name s) && attr_safe (SourceModel.source_type s) &&
  pset_safe (spectral_parameters (SourceModel.spectral_model s)) &&
  pset_safe (spatial_parameters (SourceModel.spatial_model s)).

(** Formatting the value of a parameter and reading the text as a float
    gives the value back. *)
Definition float_round_trip `{PyRuntime} (p : Param.t) : Prop :=
  float_of_str (str_float (Param.value p)) = Some (Param.value p).

(** A source that is read back from its XML text: its texts can be
    written, and its spectral model has at least two parameters, whose
    values survive formatting. *)
Definition source_readable `{PyRuntime} (s : SourceModel.t) : Prop :=
  source_safe s = true /\
  2 <= length (ParameterSet.data (spectral_parameters (SourceModel.spectral_model s))) /\
  Forall float_round_trip
    (ParameterSet.data (spectral_parameters (SourceModel.spectral_model s))).

(** A source model without the parameters of its spatial model. *)
Definition forget_spatial (s : SourceModel.t) : SourceModel.t :=
  SourceModel.mk (SourceModel.source_name s) (SourceModel.source_type s)
    (mkSpatial (spatial_class_of (SourceModel.spatial_model s)) (ParameterSet.mk []))
    (SourceModel.spectral_model s).

(** The mapping of a parameter element. *)
Definition param_value `{PyRuntime} (p : Param.t) : xml_value :=
  XDict [ ("@name", Param.name p); ("@value", str_float (Param.value p));
          ("@unit", Param.unit p) ] [].

(** The entries of a mapping whose children all bear one name: none for no
    child, the child's value for one, the list of the values for more. *)
Definition children (key : string) (vs : list xml_value) : list (string * xml_value) :=
  match vs with
  | [] => []
  | [v] => [(key, v)]
  | _ => [(key, XList vs)]
  end.

(** The mapping of a spectrum or spatial-model element, and of a source
    element. *)
Definition model_value `{PyRuntime} (type : string) (pset : ParameterSet.t) : xml_value :=
  XDict [("@type", type)] (children "parameter" (map param_value (ParameterSet.data pset))).

Definition source_value `{PyRuntime} (s : SourceModel.t) : xml_value :=
  XDict [ ("@name", SourceModel.source_name s); ("@type", SourceModel.source_type s) ]
    [ ("spectrum",
       model_value (SpectralModel.xml_type (SourceModel.spectral_model s))
         (spectral_parameters (SourceModel.spectral_model s)));
      ("spatialModel",
       model_value (SpatialModel.xml_type (SourceModel.spatial_model s))
         (spatial_parameters (SourceModel.spatial_model s))) ].

(** The events of the parameter elements of a model, each after a line
    break and its indentation, and the events of a whole model element. *)
Definition param_events `{PyRuntime} (data : list Param.t) : list xmltodict.event :=
  flat_map
    (fun p =>
       [ xmltodict.Characters (nl ++ "        ");
         xmltodict.StartElement "parameter"
           [ ("name", Param.name p); ("value", str_float (Param.value p));
             ("unit", Param.unit p) ];
         xmltodict.EndElement "parameter" ])
    data.

Definition model_events `{PyRuntime} (tag type : string) (data : list Param.t)
  : list xmltodict.event :=
  xmltodict.StartElement tag [("type", type)] ::
  param_events data ++
  [ xmltodict.Characters
      (match data with [] => nl ++ nl ++ "    " | _ => nl ++ "    " end);
    xmltodict.EndElement tag ].

Definition source_events `{PyRuntime} (s : SourceModel.t) : list xmltodict.event :=
  xmltodict.StartElement "source"
    [ ("name", SourceModel.source_name s); ("type", SourceModel.source_type s) ] ::
  xmltodict.Characters (nl ++ "    ") ::
  model_events "spectrum" (SpectralModel.xml_type (SourceModel.spectral_model s))
    (ParameterSet.data (spectral_parameters (SourceModel.spectral_model s))) ++
  xmltodict.Characters (nl ++ "    ") ::
  model_events "spatialModel" (SpatialModel.xml_type (SourceModel.spatial_model s))
    (ParameterSet.data (spatial_parameters (SourceModel.spatial_model s))) ++
  [ xmltodict.Characters nl; xmltodict.EndElement "source" ].




(** A text of spaces, tabs and line feeds only. *)
Definition plain_space_char (c : ascii) : bool :=
  let n := nat_of_ascii c in ((n =? 9) || (n =? 10) || (n =? 32))%nat.

Fixpoint plain_space (s : string) : bool :=
  match s with
  | EmptyString => true
  | String c s' => plain_space_char c && plain_space s'
  end.

(** A text of white space only, as [strip] sees it. *)
Fixpoint blank (s : string) : bool :=
  match s with
  | EmptyString => true
  | String c s' => xmltodict.is_py_space c && blank s'
  end.

(** A value that is not a list. *)
Definition not_list (v : xml_value) : Prop :=
  match v with
  | XList _ => False
  | _ => True
  end.

(** The event for pending character data, if there is any. *)
Definition text_events (text : string) : list xmltodict.event :=
  match text with
  | EmptyString => []
  | _ => [xmltodict.Characters text]
  end.

Section FurtherProperties.
Context `{rt : PyRuntime}.

(** ** Helper lemmas *)

Lemma par_has (pset : ParameterSet.t) (name : string) :
  has name pset -> exists p, ParameterSet.par pset name = Ok p.
Proof.
  intros (p & Hin & Hp). unfold ParameterSet.par.
  destruct (ParameterSet.lookup name (ParameterSet.data pset)) as [q|] eqn:E.
  - now exists q.
  - exfalso. revert Hin E. generalize (ParameterSet.data pset) as l.
    induction l as [|q l IH]; simpl; intros Hin E.
    + contradiction.
    + destruct (String.eqb_spec name (Param.name q)) as [_|N]; [discriminate|].
      destruct Hin as [->|Hin]; [now apply N | now apply IH].
Qed.

Lemma par_lacks (pset : ParameterSet.t) (name : string) :
  lacks name pset ->
  ParameterSet.par pset name =
  Raise (IndexError
           ("Parameter " ++ name ++ " not found for pset: " ++ ParameterSet.repr pset)).
Proof.
  intros Hl. unfold ParameterSet.par.
  rewrite lookup_none; [reflexivity|]. apply Forall_forall. exact Hl.
Qed.

Lemma par_ok_has (pset : ParameterSet.t) (name : string) (p : Param.t) :
  ParameterSet.par pset name = Ok p -> has name pset.
Proof.
  intros E. apply par_ok_lookup, lookup_some in E as (before & after & Hd & Hp & _).
  exists p. split; [|exact Hp]. rewrite Hd. apply in_elt.
Qed.

(** ** Spectral conversions from catalog parameters *)

(** X1: for a set in which [par] finds [amplitude], [index], [emin] and
    [emax], the conversion of the integral power law returns, in this
    order, [Integral] with the amplitude's value, [Index] with the index's
    value negated, [LowerLimit] with [emin]'s value and [UpperLimit] with
    [emax]'s value, each with the unit of the parameter it comes from. *)
Theorem powerlaw2_from_pset (pset : ParameterSet.t)
    (amplitude index emin emax : Param.t) :
  ParameterSet.par pset "amplitude" = Ok amplitude ->
  ParameterSet.par pset "index" = Ok index ->
  ParameterSet.par pset "emin" = Ok emin ->
  ParameterSet.par pset "emax" = Ok emax ->
  SpectralModelPowerLaw2.from_pset pset =
  Ok (mkSpectral PowerLaw2
        (ParameterSet.mk
           [ Param.mk "Integral" (Param.value amplitude) (Param.unit amplitude);
             Param.mk "Index" (- Param.value index)%float (Param.unit index);
             Param.mk "LowerLimit" (Param.value emin) (Param.unit emin);
             Param.mk "UpperLimit" (Param.value emax) (Param.unit emax) ])).
Proof.
  intros Ha Hi Hlo Hhi. unfold SpectralModelPowerLaw2.from_pset.
  rewrite Ha; cbn [bind Param.init py_float]. rewrite Hi; cbn [bind Param.init py_float].
  rewrite Hlo; cbn [bind Param.init py_float]. rewrite Hhi. reflexivity.
Qed.

(** X2: a conversion from catalog parameters looks its names up in a
    fixed order and stops at the first one the set lacks: when every
    earlier name is present and none of them is [lambda_], it raises the
    [IndexError] of [par] for the missing name.  A conversion that returns a
    model found every name it requires. *)
Theorem from_pset_required_names (cls : spectral_class) (pset : ParameterSet.t) :
  (forall before name after,
     required cls = before ++ name :: after ->
     ~ In "lambda_" before ->
     (forall k, In k before -> has k pset) ->
     lacks name pset ->
     from_pset_of cls pset =
     Raise (IndexError
              ("Parameter " ++ name ++ " not found for pset: " ++ ParameterSet.repr pset))) /\
  (forall m,
     from_pset_of cls pset = Ok m ->
     forall k, In k (required cls) -> has k pset).
Proof.
  split.
  - intros before name after Hreq Hlam Hhas Hlacks.
    apply par_lacks in Hlacks.
    assert (Hfound : forall k, In k before -> exists p, ParameterSet.par pset k = Ok p)
      by (intros k Hk; apply par_has, Hhas, Hk).
    destruct cls; cbn [required from_pset_of] in *;
      unfold SpectralModelPowerLaw.from_pset, SpectralModelPowerLaw2.from_pset,
        SpectralModelExpCutoff.from_pset;
      repeat
        (destruct before as [|? before];
         [ cbn [app] in Hreq; injection Hreq as <- <-; rewrite Hlacks; reflexivity
         | cbn [app] in Hreq; injection Hreq as <- Hreq;
           let p := fresh "p" in
           let E := fresh "E" in
           destruct (Hfound _ (or_introl eq_refl)) as (p & E); rewrite E;
           cbn [bind Param.init py_float];
           assert (Hfound' : forall k, In k before -> exists p, ParameterSet.par pset k = Ok p)
             by (intros k Hk; apply Hfound; right; exact Hk);
           clear Hfound; rename Hfound' into Hfound;
           assert (Hlam' : ~ In "lambda_" before)
             by (intros Hk; apply Hlam; right; exact Hk);
           try (exfalso; apply Hlam; left; reflexivity);
           clear Hlam; rename Hlam' into Hlam ]);
      try (destruct before; discriminate Hreq).
  - intros m Hm k Hk.
    destruct cls; cbn [required from_pset_of] in *;
      unfold SpectralModelPowerLaw.from_pset, SpectralModelPowerLaw2.from_pset,
        SpectralModelExpCutoff.from_pset in Hm;
      repeat
        (let p := fresh "p" in
         let E := fresh "E" in
         apply bind_ok in Hm as (p & E & Hm);
         try apply par_ok_has in E);
      repeat (destruct Hk as [<-|Hk]; [assumption|]); contradiction.
Qed.

Lemma map_result_first_error {A B : Type} (f : A -> result B) (before : list A)
    (bs : list B) (a : A) (after : list A) (e : exn) :
  Forall2 (fun x b => f x = Ok b) before bs ->
  f a = Raise e ->
  map_result f (before ++ a :: after) = Raise e.
Proof.
  intros F Ha. induction F as [|x b before bs Hx _ IH]; cbn [app map_result].
  - rewrite Ha. reflexivity.
  - rewrite Hx, IH. reflexivity.
Qed.

Lemma contains_child_key (attrs : list (string * string))
    (items : list (string * xml_value)) (k : string) :
  attrs_prefixed attrs ->
  prefixb "@" k = false ->
  contains (XDict attrs items) k =
  Ok (match assoc k items with Some _ => true | None => false end).
Proof.
  intros Hp Hk. cbn [contains]. f_equal. unfold keys. rewrite existsb_app.
  replace (existsb (String.eqb k) (map fst attrs)) with false.
  - cbn [orb]. induction items as [|[k' v] items IH]; cbn [map fst existsb assoc].
    + reflexivity.
    + destruct (String.eqb k k'); [reflexivity | exact IH].
  - symmetry. induction Hp as [|[k' v] attrs Hk' _ IH]; cbn [map fst existsb].
    + reflexivity.
    + rewrite IH, orb_false_r. cbn [fst] in Hk'.
      destruct (String.eqb_spec k k') as [->|_]; [congruence | reflexivity].
Qed.

(** ** Dispatch of spectral models read from XML *)

(** X3: the spectral dispatch compares the type string with the primary
    type string of each class only.  The parameters are read first: when
    reading them raises, that exception is raised whatever the type string
    is.  Otherwise [PowerLaw], [PowerLaw2] and [ExpCutoff] give a model of
    that class holding the parameters as read, and any other string raises
    [UnknownModelError] with a message that calls the model spatial. *)
Theorem spectral_from_xml_dict_dispatch (data parameter : xml_value) (model_type : string) :
  attr data "@type" = Ok model_type ->
  item data "parameter" = Ok parameter ->
  (forall e,
     ParameterSet.from_list_of_dict_xml parameter = Raise e ->
     SpectralModel.from_xml_dict data = Raise e) /\
  (forall pset,
     ParameterSet.from_list_of_dict_xml parameter = Ok pset ->
     (model_type = "PowerLaw" ->
      SpectralModel.from_xml_dict data = Ok (mkSpectral PowerLaw pset)) /\
     (model_type = "PowerLaw2" ->
      SpectralModel.from_xml_dict data = Ok (mkSpectral PowerLaw2 pset)) /\
     (model_type = "ExpCutoff" ->
      SpectralModel.from_xml_dict data = Ok (mkSpectral ExpCutoff pset)) /\
     (~ In model_type ["PowerLaw"; "PowerLaw2"; "ExpCutoff"] ->
      SpectralModel.from_xml_dict data =
      Raise (UnknownModelError ("Unknown spatial model: " ++ model_type)))).
Proof.
  intros Ht Hp. unfold SpectralModel.from_xml_dict. rewrite Ht, Hp. cbn [bind].
  split.
  - intros e He. rewrite He. reflexivity.
  - intros pset Hpset. rewrite Hpset. cbn [bind].
    repeat split.
    + intros ->. reflexivity.
    + intros ->. reflexivity.
    + intros ->. reflexivity.
    + intros Hnone.
      destruct (String.eqb_spec model_type SpectralModelPowerLaw.xml_type) as [E|_];
        [exfalso; apply Hnone; rewrite E; cbn; auto|].
      destruct (String.eqb_spec model_type SpectralModelPowerLaw2.xml_type) as [E|_];
        [exfalso; apply Hnone; rewrite E; cbn; auto|].
      destruct (String.eqb_spec model_type SpectralModelExpCutoff.xml_type) as [E|_];
        [exfalso; apply Hnone; rewrite E; cbn; auto|].
      reflexivity.
Qed.

(** X4: when the [parameter] entry of a spectrum is a single mapping, as
    the XML primitive returns for a spectrum with one parameter element,
    the parameters are read from the mapping's keys; a key is a string,
    which has no [get], so the call raises [AttributeError] whatever the
    type string is. *)
Theorem spectral_from_xml_dict_single_parameter (data : xml_value) (model_type : string)
    (attrs : list (string * string)) (items : list (string * xml_value)) :
  attr data "@type" = Ok model_type ->
  item data "parameter" = Ok (XDict attrs items) ->
  keys attrs items <> [] ->
  ParameterSet.from_list_of_dict_xml (XDict attrs items) = Raise AttributeError /\
  SpectralModel.from_xml_dict data = Raise AttributeError.
Proof.
  intros Ht Hp Hkeys.
  assert (E : ParameterSet.from_list_of_dict_xml (XDict attrs items) = Raise AttributeError).
  { unfold ParameterSet.from_list_of_dict_xml. cbn [iter bind].
    destruct (keys attrs items) as [|k ks]; [contradiction | reflexivity]. }
  split; [exact E|].
  unfold SpectralModel.from_xml_dict. rewrite Ht, Hp. cbn [bind]. rewrite E. reflexivity.
Qed.

(** X9: [from_dict_xml] reads the unit first, through [get], then the
    name, then the value.  Anything but a mapping raises [AttributeError];
    a mapping without a name raises [KeyError] for the name key, one with a
    name and without a value raises [KeyError] for the value key; a value
    that [float] cannot read raises [ValueError]; otherwise the parameter
    has the name as written, the float read from the value, and the unit as
    written or the empty unit. *)
Theorem parameter_from_dict_xml_cases :
  (forall data,
     (forall attrs items, data <> XDict attrs items) ->
     Param.from_dict_xml data = Raise AttributeError) /\
  (forall attrs items,
     assoc "@name" attrs = None ->
     Param.from_dict_xml (XDict attrs items) = Raise (KeyError "@name")) /\
  (forall attrs items name,
     assoc "@name" attrs = Some name ->
     assoc "@value" attrs = None ->
     Param.from_dict_xml (XDict attrs items) = Raise (KeyError "@value")) /\
  (forall attrs items name value,
     assoc "@name" attrs = Some name ->
     assoc "@value" attrs = Some value ->
     float_of_str value = None ->
     Param.from_dict_xml (XDict attrs items) =
     Raise (ValueError ("could not convert string to float: " ++ repr_str value))) /\
  (forall attrs items name value x,
     assoc "@name" attrs = Some name ->
     assoc "@value" attrs = Some value ->
     float_of_str value = Some x ->
     Param.from_dict_xml (XDict attrs items) =
     Ok (Param.mk name x
           (match assoc "@unit" attrs with Some unit => unit | None => EmptyString end))).
Proof.
  repeat split.
  - intros data Hd. destruct data as [|s|l|attrs items]; try reflexivity.
    exfalso. now apply (Hd attrs items).
  - intros attrs items Hn. unfold Param.from_dict_xml. cbn [attr_get attr].
    rewrite Hn. destruct (assoc "@unit" attrs); reflexivity.
  - intros attrs items name Hn Hv. unfold Param.from_dict_xml. cbn [attr_get attr].
    rewrite Hn, Hv. destruct (assoc "@unit" attrs); reflexivity.
  - intros attrs items name value Hn Hv Hf.
    unfold Param.from_dict_xml, Param.init, py_float. cbn [attr_get attr].
    rewrite Hn, Hv. destruct (assoc "@unit" attrs); cbn [bind]; rewrite Hf; reflexivity.
  - intros attrs items name value x Hn Hv Hf.
    unfold Param.from_dict_xml, Param.init, py_float. cbn [attr_get attr].
    rewrite Hn, Hv. destruct (assoc "@unit" attrs); cbn [bind]; rewrite Hf; reflexivity.
Qed.

(** ** Models built from catalog sources *)

(** X5: the spatial model of a catalog source is chosen by its
    morphology string: [point] gives a point model with [GLON] and [GLAT];
    [gauss] a Gauss model with [GLON], [GLAT] and [Sigma]; [shell] a shell
    model with [GLON], [GLAT], [Radius] and a [Width] of zero degrees.
    Positions and extension are copied with their units from the catalog.
    Any other morphology raises [UnknownModelError] with the source in the
    message. *)
Theorem spatial_from_gammacat_parameters (source : catalog_source) :
  let GLON := Param.mk "GLON" (q_value (glon source)) (q_unit (glon source)) in
  let GLAT := Param.mk "GLAT" (q_value (glat source)) (q_unit (glat source)) in
  (morph_type source = "point" ->
   SpatialModel.from_gammacat source =
   Ok (mkSpatial Point (ParameterSet.mk [GLON; GLAT]))) /\
  (morph_type source = "gauss" ->
   SpatialModel.from_gammacat source =
   Ok (mkSpatial Gauss
         (ParameterSet.mk
            [ GLON; GLAT;
              Param.mk "Sigma" (q_value (morph_sigma source))
                (q_unit (morph_sigma source)) ]))) /\
  (morph_type source = "shell" ->
   SpatialModel.from_gammacat source =
   Ok (mkSpatial Shell
         (ParameterSet.mk
            [ GLON; GLAT;
              Param.mk "Radius" (q_value (morph_sigma source))
                (q_unit (morph_sigma source));
              Param.mk "Width" 0 "deg" ]))) /\
  (~ In (morph_type source) ["point"; "gauss"; "shell"] ->
   SpatialModel.from_gammacat source =
   Raise (UnknownModelError ("Unknown spatial model: " ++ source_str source))).
Proof.
  unfold SpatialModel.from_gammacat. repeat split.
  - intros ->. reflexivity.
  - intros ->. reflexivity.
  - intros ->. reflexivity.
  - intros Hnone.
    destruct (String.eqb_spec (morph_type source) "point") as [E|_];
      [exfalso; apply Hnone; rewrite E; cbn; auto|].
    destruct (String.eqb_spec (morph_type source) "gauss") as [E|_];
      [exfalso; apply Hnone; rewrite E; cbn; auto|].
    destruct (String.eqb_spec (morph_type source) "shell") as [E|_];
      [exfalso; apply Hnone; rewrite E; cbn; auto|].
    reflexivity.
Qed.

Lemma from_list_of_dict_gammacat_total (data : gammacat_spectrum) :
  ParameterSet.from_list_of_dict_gammacat (gs_parameters data) = Ok (catalog_pset data).
Proof.
  unfold ParameterSet.from_list_of_dict_gammacat, catalog_pset.
  rewrite (map_result_total _ (fun d => Param.mk (gc_name d) (gc_val d) (gc_unit d)))
    by reflexivity.
  reflexivity.
Qed.

(** X6: when the catalog returns a spectral dictionary, its parameter
    list always converts, keeping order, names, values and units, and the
    family name selects the conversion applied to it: [PowerLaw] the power
    law, [PowerLaw2] the integral power law, [ExponentialCutoffPowerLaw] the
    cutoff power law.  What [from_gammacat] returns or raises is then what
    that conversion returns or raises. *)
Theorem spectral_from_gammacat_dispatch (source : catalog_source) (data : gammacat_spectrum) :
  spectral_model_to_dict source = inr data ->
  ParameterSet.from_list_of_dict_gammacat (gs_parameters data) = Ok (catalog_pset data) /\
  (gs_name data = "PowerLaw" ->
   SpectralModel.from_gammacat source = SpectralModelPowerLaw.from_pset (catalog_pset data)) /\
  (gs_name data = "PowerLaw2" ->
   SpectralModel.from_gammacat source = SpectralModelPowerLaw2.from_pset (catalog_pset data)) /\
  (gs_name data = "ExponentialCutoffPowerLaw" ->
   SpectralModel.from_gammacat source = SpectralModelExpCutoff.from_pset (catalog_pset data)).
Proof.
  intros Hd. split; [apply from_list_of_dict_gammacat_total|].
  unfold SpectralModel.from_gammacat. rewrite Hd. cbn [bind].
  rewrite from_list_of_dict_gammacat_total. cbn [bind].
  repeat split; intros ->; reflexivity.
Qed.

(** X7: a source model is built from the spectral model first and the
    spatial model second.  A source whose catalog entry has no spectral
    data raises [NoDataAvailableError] whatever its morphology is; a source
    with a spectral model and an unknown morphology raises
    [UnknownModelError]; and a source model that is returned carries the
    catalog's common name and the two models that the spectral and the
    spatial conversion return for the source. *)
Theorem source_from_gammacat_composition (source : catalog_source) :
  (forall e,
     spectral_model_to_dict source = inl e -> is_ValueError e = true ->
     SourceModel.from_gammacat source = Raise (NoDataAvailableError source)) /\
  (forall spectral,
     SpectralModel.from_gammacat source = Ok spectral ->
     ~ In (morph_type source) ["point"; "gauss"; "shell"] ->
     SourceModel.from_gammacat source =
     Raise (UnknownModelError ("Unknown spatial model: " ++ source_str source))) /\
  (forall m,
     SourceModel.from_gammacat source = Ok m ->
     SourceModel.source_name m = common_name source /\
     SpectralModel.from_gammacat source = Ok (SourceModel.spectral_model m) /\
     SpatialModel.from_gammacat source = Ok (SourceModel.spatial_model m)).
Proof.
  unfold SourceModel.from_gammacat. repeat split.
  - intros e He Hv. unfold SpectralModel.from_gammacat. rewrite He, Hv. reflexivity.
  - intros spectral Hs Hnone. rewrite Hs. cbn [bind].
    unfold SpatialModel.from_gammacat.
    destruct (String.eqb_spec (morph_type source) "point") as [E|_];
      [exfalso; apply Hnone; rewrite E; cbn; auto|].
    destruct (String.eqb_spec (morph_type source) "gauss") as [E|_];
      [exfalso; apply Hnone; rewrite E; cbn; auto|].
    destruct (String.eqb_spec (morph_type source) "shell") as [E|_];
      [exfalso; apply Hnone; rewrite E; cbn; auto|].
    reflexivity.
  - apply bind_ok in H as (spectral & Hs & H).
    apply bind_ok in H as (spatial & Hp & H). injection H as <-. reflexivity.
  - apply bind_ok in H as (spectral & Hs & H).
    apply bind_ok in H as (spatial & Hp & H). injection H as <-. exact Hs.
  - apply bind_ok in H as (spectral & Hs & H).
    apply bind_ok in H as (spatial & Hp & H). injection H as <-.
    destruct (SpectralModel.from_gammacat source); [exact Hp | discriminate].
Qed.

(** ** Source models and libraries read from XML *)

(** X8: in a source mapping with a name, a type and a readable spectrum,
    the spatial model is read from the child [radialModel] when there is
    one, even beside a child [spatialModel]; from [spatialModel] when there
    is no [radialModel]; and when there is neither, [UnknownModelError] is
    raised with the mapping in the message. *)
Theorem source_from_xml_dict_spatial_child (attrs : list (string * string))
    (items : list (string * xml_value)) (name type : string)
    (spectrum : xml_value) (spectral : spectral_model) :
  attrs_prefixed attrs ->
  assoc "@name" attrs = Some name ->
  assoc "@type" attrs = Some type ->
  assoc "spectrum" items = Some spectrum ->
  SpectralModel.from_xml_dict spectrum = Ok spectral ->
  (forall radial,
     assoc "radialModel" items = Some radial ->
     SourceModel.from_xml_dict (XDict attrs items) =
     let* spatial := SpatialModel.from_xml_dict radial in
     Ok (SourceModel.mk name type spatial spectral)) /\
  (forall child,
     assoc "radialModel" items = None ->
     assoc "spatialModel" items = Some child ->
     SourceModel.from_xml_dict (XDict attrs items) =
     let* spatial := SpatialModel.from_xml_dict child in
     Ok (SourceModel.mk name type spatial spectral)) /\
  (assoc "radialModel" items = None ->
   assoc "spatialModel" items = None ->
   SourceModel.from_xml_dict (XDict attrs items) =
   Raise (UnknownModelError
            ("No spatial / radial model found for: " ++ str_xml_value (XDict attrs items)))).
Proof.
  intros Hp Hn Ht Hs Hspec. unfold SourceModel.from_xml_dict.
  rewrite !(contains_child_key _ _ _ Hp) by reflexivity.
  cbn [attr item]. rewrite Hn, Ht, Hs. cbn [bind]. rewrite Hspec. cbn [bind].
  repeat split.
  - intros radial Hr. rewrite Hr. reflexivity.
  - intros child Hr Hc. rewrite Hr, Hc. reflexivity.
  - intros Hr Hc. rewrite Hr, Hc. reflexivity.
Qed.

(** X10: reading a list of source mappings stops at the first mapping
    that cannot be converted: when the mappings before it convert and it
    raises, the whole call raises the same exception and no library is
    returned, whatever follows.  Reading a list of parameter mappings stops
    in the same way. *)
Theorem from_list_of_dict_first_error :
  (forall before models d after e,
     Forall2 (fun x m => SourceModel.from_xml_dict x = Ok m) before models ->
     SourceModel.from_xml_dict d = Raise e ->
     SourceLibrary.from_list_of_dict (XList (before ++ d :: after)) = Raise e) /\
  (forall before parameters d after e,
     Forall2 (fun x p => Param.from_dict_xml x = Ok p) before parameters ->
     Param.from_dict_xml d = Raise e ->
     ParameterSet.from_list_of_dict_xml (XList (before ++ d :: after)) = Raise e).
Proof.
  split.
  - intros before models d after e F Hd. unfold SourceLibrary.from_list_of_dict.
    cbn [iter bind]. rewrite (map_result_first_error _ _ _ _ _ _ F Hd). reflexivity.
  - intros before parameters d after e F Hd. unfold ParameterSet.from_list_of_dict_xml.
    cbn [iter bind]. rewrite (map_result_first_error _ _ _ _ _ _ F Hd). reflexivity.
Qed.

(** ** Scanning what the conversion writes *)

Lemma scan_text (pre s : string) :
  plain_space s = true ->
  xmltodict.scan (xmltodict.Content pre) s = (xmltodict.Content (pre ++ s), []).
Proof.
  revert pre. induction s as [|c s IH]; intros pre H; cbn [xmltodict.scan plain_space] in *.
  - now rewrite append_empty_r.
  - apply andb_true_iff in H as [Hc Hs].
    assert (Hstep : xmltodict.step (xmltodict.Content pre) c =
                    (xmltodict.Content (xmltodict.snoc pre c), [])).
    { unfold xmltodict.step, xmltodict.is_legal, xmltodict.content_step, xmltodict.code,
        plain_space_char in *.
      destruct (nat_of_ascii c) as [|[|[|[|[|[|[|[|[|[|[|[|[|[|[|[|[|[|[|[|[|[|[|[|[|[|[|[|[|[|[|[|[|n]]]]]]]]]]]]]]]]]]]]]]]]]]]]]]]]];
        try discriminate Hc; reflexivity. }
    rewrite Hstep, (IH _ Hs), append_snoc. reflexivity.
Qed.

Lemma append_nonempty (pre s : string) :
  s <> EmptyString -> text_events (pre ++ s) = [xmltodict.Characters (pre ++ s)].
Proof.
  intros Hs. destruct pre as [|a pre]; cbn.
  - destruct s; [contradiction | reflexivity].
  - reflexivity.
Qed.

Lemma scan_close (pre tag closing : string) :
  pre <> EmptyString ->
  xmltodict.scan xmltodict.TagOpen closing =
  (xmltodict.Content EmptyString, [xmltodict.EndElement tag]) ->
  xmltodict.scan (xmltodict.Content pre) (String "<" closing) =
  (xmltodict.Content EmptyString, [xmltodict.Characters pre; xmltodict.EndElement tag]).
Proof.
  intros Hpre Hclose. cbn [xmltodict.scan].
  change (xmltodict.step (xmltodict.Content pre) "<")
    with (xmltodict.TagOpen, text_events pre).
  cbv beta iota. rewrite Hclose. destruct pre; [contradiction | reflexivity].
Qed.

Lemma scan_param_xml (pre : string) (p : Param.t) :
  param_safe p = true ->
  xmltodict.scan (xmltodict.Content pre) (Param.to_xml p) =
  (xmltodict.Content EmptyString,
   [ xmltodict.Characters (pre ++ "        ");
     xmltodict.StartElement "parameter"
       [ ("name", Param.name p); ("value", str_float (Param.value p));
         ("unit", Param.unit p) ];
     xmltodict.EndElement "parameter" ]).
Proof.
  unfold param_safe. intros H.
  apply andb_true_iff in H as [H Hu]. apply andb_true_iff in H as [Hn Hv].
  change (Param.to_xml p)
    with ("        " ++
          parameter_fragment (Param.name p) (str_float (Param.value p)) (Param.unit p))%string.
  rewrite scan_app, (scan_text pre "        " eq_refl). cbv beta iota.
  rewrite (scan_parameter _ _ _ _ Hn Hv Hu).
  fold (text_events (pre ++ "        ")).
  rewrite append_nonempty by discriminate. reflexivity.
Qed.

Lemma scan_pset (data : list Param.t) :
  forallb param_safe data = true ->
  xmltodict.scan (xmltodict.Content nl) (ParameterSet.to_xml (ParameterSet.mk data)) =
  (xmltodict.Content (match data with [] => nl | _ => EmptyString end), param_events data).
Proof.
  unfold ParameterSet.to_xml. cbn [ParameterSet.data].
  induction data as [|p data IH]; intros H.
  - reflexivity.
  - cbn [forallb] in H. apply andb_true_iff in H as [Hp Hdata].
    destruct data as [|q data].
    + cbn [map String.concat]. rewrite (scan_param_xml _ _ Hp). reflexivity.
    + change (String.concat nl (map Param.to_xml (p :: q :: data)))
        with (Param.to_xml p ++ nl ++ String.concat nl (map Param.to_xml (q :: data)))%string.
      rewrite scan_app, (scan_param_xml _ _ Hp). cbv beta iota.
      change (xmltodict.scan (xmltodict.Content EmptyString)
                (nl ++ String.concat nl (map Param.to_xml (q :: data))))
        with (let (m1, out1) :=
                xmltodict.scan (xmltodict.Content nl)
                  (String.concat nl (map Param.to_xml (q :: data))) in
              (m1, @nil xmltodict.event ++ out1)).
      rewrite (IH Hdata). reflexivity.
Qed.

Lemma scan_model_element (opening closing tag type : string) (pre : string)
    (data : list Param.t) :
  (forall text,
     xmltodict.scan (xmltodict.Content text) opening =
     (xmltodict.Content nl, text_events text ++ [xmltodict.StartElement tag [("type", type)]])) ->
  (forall text,
     xmltodict.scan (xmltodict.Content text) closing =
     (xmltodict.Content EmptyString,
      [xmltodict.Characters (text ++ nl ++ "    "); xmltodict.EndElement tag])) ->
  forallb param_safe data = true ->
  xmltodict.scan (xmltodict.Content pre)
    (opening ++ ParameterSet.to_xml (ParameterSet.mk data) ++ closing) =
  (xmltodict.Content EmptyString, text_events pre ++ model_events tag type data).
Proof.
  intros Hopen Hclose Hsafe.
  rewrite scan_app, Hopen. cbv beta iota.
  rewrite scan_app, (scan_pset _ Hsafe). cbv beta iota.
  rewrite Hclose. unfold model_events. rewrite <- app_assoc. cbn [app].
  destruct data; reflexivity.
Qed.

Lemma scan_spectral (pre : string) (m : spectral_model) :
  pset_safe (spectral_parameters m) = true ->
  xmltodict.scan (xmltodict.Content pre) (SpectralModel.to_xml m) =
  (xmltodict.Content EmptyString,
   text_events pre ++
   model_events "spectrum" (SpectralModel.xml_type m)
     (ParameterSet.data (spectral_parameters m))).
Proof.
  destruct m as [cls [data]]. unfold pset_safe. cbn [spectral_parameters ParameterSet.data].
  intros Hsafe.
  pose (tag := "spectrum").
  destruct cls;
    (match goal with
     | |- xmltodict.scan _ (SpectralModel.to_xml ?m) = _ =>
         change (SpectralModel.to_xml m)
           with (("<spectrum type=" ++ dquote ++ SpectralModel.xml_type m ++ dquote ++ ">" ++ nl) ++
                 ParameterSet.to_xml (ParameterSet.mk data) ++
                 (nl ++ "    </spectrum>"))%string
     end;
     apply scan_model_element;
     [ intros text; destruct text; reflexivity
     | intros text;
       change (nl ++ "    </spectrum>")%string with ((nl ++ "    ") ++ "</spectrum>")%string;
       rewrite scan_app, (scan_text text (nl ++ "    ") eq_refl);
       cbv beta iota;
       rewrite (scan_close _ tag) by (try reflexivity; destruct text; discriminate);
       reflexivity
     | exact Hsafe ]).
Qed.

Lemma scan_spatial (pre : string) (m : spatial_model) :
  pset_safe (spatial_parameters m) = true ->
  xmltodict.scan (xmltodict.Content pre) (SpatialModel.to_xml m) =
  (xmltodict.Content EmptyString,
   text_events pre ++
   model_events "spatialModel" (SpatialModel.xml_type m)
     (ParameterSet.data (spatial_parameters m))).
Proof.
  destruct m as [cls [data]]. unfold pset_safe. cbn [spatial_parameters ParameterSet.data].
  intros Hsafe.
  pose (tag := "spatialModel").
  destruct cls;
    (match goal with
     | |- xmltodict.scan _ (SpatialModel.to_xml ?m) = _ =>
         change (SpatialModel.to_xml m)
           with (("<spatialModel type=" ++ dquote ++ SpatialModel.xml_type m ++ dquote ++ ">" ++ nl) ++
                 ParameterSet.to_xml (ParameterSet.mk data) ++
                 (nl ++ "    </spatialModel>"))%string
     end;
     apply scan_model_element;
     [ intros text; destruct text; reflexivity
     | intros text;
       change (nl ++ "    </spatialModel>")%string with ((nl ++ "    ") ++ "</spatialModel>")%string;
       rewrite scan_app, (scan_text text (nl ++ "    ") eq_refl);
       cbv beta iota;
       rewrite (scan_close _ tag) by (try reflexivity; destruct text; discriminate);
       reflexivity
     | exact Hsafe ]).
Qed.

Lemma scan_source (pre : string) (s : SourceModel.t) :
  source_safe s = true ->
  xmltodict.scan (xmltodict.Content pre) (SourceModel.to_xml s) =
  (xmltodict.Content nl, text_events pre ++ source_events s).
Proof.
  unfold source_safe. intros H.
  apply andb_true_iff in H as [H Hspatial]. apply andb_true_iff in H as [H Hspectral].
  apply andb_true_iff in H as [Hn Ht].
  change (SourceModel.to_xml s)
    with (("<source name=" ++ dquote) ++ SourceModel.source_name s ++
          (dquote ++ " type=" ++ dquote) ++ SourceModel.source_type s ++
          (dquote ++ ">" ++ nl ++ "    ") ++
          SpectralModel.to_xml (SourceModel.spectral_model s) ++
          (nl ++ "    ") ++
          SpatialModel.to_xml (SourceModel.spatial_model s) ++
          (nl ++ "</source>" ++ nl))%string.
  rewrite scan_app.
  replace (xmltodict.scan (xmltodict.Content pre) ("<source name=" ++ dquote))
    with (xmltodict.AttrValue "source" [] "name" dquote_char EmptyString, text_events pre)
    by (destruct pre; reflexivity).
  cbv beta iota. rewrite scan_app, (scan_attr_value _ _ _ _ _ Hn).
  cbv beta iota. rewrite scan_app.
  change (xmltodict.scan
            (xmltodict.AttrValue "source" [] "name" dquote_char
               (EmptyString ++ SourceModel.source_name s))
            (dquote ++ " type=" ++ dquote))
    with (xmltodict.AttrValue "source" [("name", SourceModel.source_name s)] "type"
            dquote_char EmptyString,
          @nil xmltodict.event).
  cbv beta iota. rewrite scan_app, (scan_attr_value _ _ _ _ _ Ht).
  cbv beta iota. rewrite scan_app.
  change (xmltodict.scan
            (xmltodict.AttrValue "source" [("name", SourceModel.source_name s)] "type"
               dquote_char (EmptyString ++ SourceModel.source_type s))
            (dquote ++ ">" ++ nl ++ "    "))
    with (xmltodict.Content (nl ++ "    "),
          [ xmltodict.StartElement "source"
              [ ("name", SourceModel.source_name s);
                ("type", SourceModel.source_type s) ] ]).
  cbv beta iota. rewrite scan_app, (scan_spectral _ _ Hspectral).
  cbv beta iota. rewrite scan_app.
  change (xmltodict.scan (xmltodict.Content EmptyString) (nl ++ "    "))
    with (xmltodict.Content (nl ++ "    "), @nil xmltodict.event).
  cbv beta iota. rewrite scan_app, (scan_spatial _ _ Hspatial).
  cbv beta iota.
  change (xmltodict.scan (xmltodict.Content EmptyString) (nl ++ "</source>" ++ nl))
    with (xmltodict.Content nl, [xmltodict.Characters nl; xmltodict.EndElement "source"]).
  unfold source_events. cbn [text_events app append nl]. reflexivity.
Qed.



(** ** Building the mapping from the events *)

Lemma feed_all_app (h : xmltodict.handler) (l1 l2 : list xmltodict.event) :
  xmltodict.feed_all h (l1 ++ l2) =
  match xmltodict.feed_all h l1 with
  | Some h1 => xmltodict.feed_all h1 l2
  | None => None
  end.
Proof.
  revert h. induction l1 as [|e l1 IH]; intros h; cbn [app xmltodict.feed_all].
  - reflexivity.
  - destruct (xmltodict.feed h e); [apply IH | reflexivity].
Qed.


Lemma blank_app (s1 s2 : string) :
  blank s1 = true -> blank s2 = true -> blank (s1 ++ s2) = true.
Proof.
  induction s1 as [|c s1 IH]; cbn [append blank]; intros H1 H2.
  - exact H2.
  - apply andb_true_iff in H1 as [Hc H1]. now rewrite Hc, IH.
Qed.

Lemma blank_concat (data : list string) :
  Forall (fun s => blank s = true) data -> blank (String.concat EmptyString data) = true.
Proof.
  induction 1 as [|s data Hs Hdata IH].
  - reflexivity.
  - destruct data as [|s' data]; [exact Hs|].
    change (String.concat EmptyString (s :: s' :: data))
      with (s ++ EmptyString ++ String.concat EmptyString (s' :: data))%string.
    apply blank_app; [exact Hs | exact IH].
Qed.

Lemma lstrip_blank (s : string) : blank s = true -> xmltodict.lstrip s = EmptyString.
Proof.
  induction s as [|c s IH]; cbn [blank xmltodict.lstrip]; intros H.
  - reflexivity.
  - apply andb_true_iff in H as [Hc Hs]. rewrite Hc. now apply IH.
Qed.

Lemma text_of_blank (data : list string) :
  Forall (fun s => blank s = true) data -> xmltodict.text_of data = None.
Proof.
  intros H. unfold xmltodict.text_of, xmltodict.strip.
  rewrite (lstrip_blank _ (blank_concat _ H)). destruct data; reflexivity.
Qed.

Lemma push_children (key : string) (v : xml_value) (vs : list xml_value) :
  Forall not_list vs ->
  xmltodict.push key v (children key vs) = children key (vs ++ [v]).
Proof.
  intros H. destruct vs as [|v0 [|v1 vs]]; cbn [children app xmltodict.push].
  - reflexivity.
  - rewrite String.eqb_refl. inversion H as [|? ? Hv0 _]; subst.
    destruct v0; try reflexivity. contradiction.
  - rewrite String.eqb_refl. destruct vs; reflexivity.
Qed.

Lemma param_values_not_list (data : list Param.t) :
  Forall not_list (map param_value data).
Proof. induction data; constructor; [exact I | assumption]. Qed.


Lemma feed_param (p : Param.t) (open : string) (rest : list string)
    (st : list (option xmltodict.dict * list string)) (it : option xmltodict.dict)
    (da : list string) :
  xmltodict.feed_all (xmltodict.mkHandler (open :: rest) st it da)
    [ xmltodict.Characters (nl ++ "        ");
      xmltodict.StartElement "parameter"
        [ ("name", Param.name p); ("value", str_float (Param.value p));
          ("unit", Param.unit p) ];
      xmltodict.EndElement "parameter" ] =
  Some (xmltodict.mkHandler (open :: rest) st
          (Some (xmltodict.push_data it "parameter" (param_value p)))
          (da ++ [(nl ++ "        ")%string])).
Proof. reflexivity. Qed.

Lemma feed_params (todo done : list Param.t) (open : string) (rest : list string)
    (st : list (option xmltodict.dict * list string))
    (A : list (string * string)) (da : list string) :
  xmltodict.feed_all
    (xmltodict.mkHandler (open :: rest) st
       (Some (A, children "parameter" (map param_value done))) da)
    (param_events todo) =
  Some (xmltodict.mkHandler (open :: rest) st
          (Some (A, children "parameter" (map param_value (done ++ todo))))
          (da ++ repeat (nl ++ "        ")%string (length todo))).
Proof.
  revert done da. induction todo as [|p todo IH]; intros done da.
  - cbn [param_events flat_map xmltodict.feed_all length repeat].
    now rewrite !app_nil_r.
  - change (param_events (p :: todo))
      with ([ xmltodict.Characters (nl ++ "        ");
              xmltodict.StartElement "parameter"
                [ ("name", Param.name p); ("value", str_float (Param.value p));
                  ("unit", Param.unit p) ];
              xmltodict.EndElement "parameter" ] ++ param_events todo).
    rewrite feed_all_app, feed_param. cbn [xmltodict.push_data].
    rewrite (push_children _ _ _ (param_values_not_list done)).
    change (map param_value done ++ [param_value p]) with
      (map param_value done ++ map param_value [p]).
    rewrite <- map_app, IH, <- !app_assoc. reflexivity.
Qed.

(** One event of character data inside an open element: the text joins
    the element's data. *)
Ltac feed_text :=
  cbn [xmltodict.feed_all xmltodict.feed xmltodict.path];
  unfold xmltodict.characters;
  cbn [xmltodict.path xmltodict.stack xmltodict.item xmltodict.data app].

Lemma feed_start (tag : string) (attrs : list (string * string)) (pa : list string)
    (st : list (option xmltodict.dict * list string)) (it : option xmltodict.dict)
    (da : list string) :
  (pa = [] -> it = None) ->
  attrs <> [] ->
  xmltodict.feed (xmltodict.mkHandler pa st it da) (xmltodict.StartElement tag attrs) =
  Some (xmltodict.mkHandler (tag :: pa) ((it, da) :: st)
          (Some (xmltodict.prefixed attrs, [])) []).
Proof.
  intros Hroot Hattrs. cbn [xmltodict.feed xmltodict.path xmltodict.item].
  unfold xmltodict.start_element. cbn [xmltodict.path xmltodict.item xmltodict.stack xmltodict.data].
  destruct attrs; [contradiction|].
  destruct pa; [rewrite (Hroot eq_refl)|]; reflexivity.
Qed.

Lemma feed_close (tag : string) (pa : list string)
    (st : list (option xmltodict.dict * list string)) (pit : option xmltodict.dict)
    (pda : list string) (it : xmltodict.dict) (da : list string) (tail : string) :
  xmltodict.text_of (da ++ [tail]) = None ->
  xmltodict.feed_all
    (xmltodict.mkHandler (tag :: pa) ((pit, pda) :: st) (Some it) da)
    [xmltodict.Characters tail; xmltodict.EndElement tag] =
  Some (xmltodict.mkHandler pa st
          (Some (xmltodict.push_data pit tag (xmltodict.to_value it))) pda).
Proof.
  intros Htext.
  cbn [xmltodict.feed_all xmltodict.feed xmltodict.path xmltodict.characters
         xmltodict.stack xmltodict.item xmltodict.data].
  rewrite String.eqb_refl. unfold xmltodict.end_element, xmltodict.characters.
  cbn [xmltodict.path xmltodict.stack xmltodict.item xmltodict.data tl].
  rewrite Htext. reflexivity.
Qed.

Lemma blank_repeat (w tail : string) (n : nat) :
  blank w = true -> blank tail = true ->
  Forall (fun s => blank s = true) (repeat w n ++ [tail]).
Proof.
  intros Hw Ht. apply Forall_app. split.
  - apply Forall_forall. intros s Hs. apply repeat_spec in Hs. now subst.
  - now constructor.
Qed.

Lemma feed_model (tag type : string) (data : list Param.t) (pa : list string)
    (st : list (option xmltodict.dict * list string)) (it : option xmltodict.dict)
    (da : list string) :
  (pa = [] -> it = None) ->
  xmltodict.feed_all (xmltodict.mkHandler pa st it da) (model_events tag type data) =
  Some (xmltodict.mkHandler pa st
          (Some (xmltodict.push_data it tag (model_value type (ParameterSet.mk data)))) da).
Proof.
  intros Hroot. unfold model_events. cbn [xmltodict.feed_all].
  rewrite (feed_start _ _ _ _ _ _ Hroot) by discriminate.
  rewrite feed_all_app.
  change (Some (xmltodict.prefixed [("type", type)], @nil (string * xml_value)))
    with (Some ([("@type", type)], children "parameter" (map param_value []))).
  rewrite feed_params. cbn [app].
  rewrite feed_close; [reflexivity|].
  apply text_of_blank, blank_repeat; [reflexivity | destruct data; reflexivity].
Qed.

Lemma feed_source (s : SourceModel.t) (pa : list string)
    (st : list (option xmltodict.dict * list string)) (it : option xmltodict.dict)
    (da : list string) :
  (pa = [] -> it = None) ->
  xmltodict.feed_all (xmltodict.mkHandler pa st it da) (source_events s) =
  Some (xmltodict.mkHandler pa st
          (Some (xmltodict.push_data it "source" (source_value s))) da).
Proof.
  intros Hroot. unfold source_events. cbn [xmltodict.feed_all].
  rewrite (feed_start _ _ _ _ _ _ Hroot) by discriminate.
  feed_text. rewrite feed_all_app, feed_model by discriminate.
  feed_text. rewrite feed_all_app, feed_model by discriminate.
  rewrite feed_close; reflexivity.
Qed.


Lemma all_space_blank (s : string) : xmltodict.all_space s = true -> blank s = true.
Proof.
  induction s as [|c s IH]; cbn [xmltodict.all_space blank]; intros H.
  - reflexivity.
  - apply andb_true_iff in H as [Hc Hs]. rewrite (IH Hs), andb_true_r.
    unfold xmltodict.is_space, xmltodict.is_py_space, xmltodict.code in *.
    destruct (nat_of_ascii c) as [|[|[|[|[|[|[|[|[|[|[|[|[|[|[|[|[|[|[|[|[|[|[|[|[|[|[|[|[|[|[|[|[|n]]]]]]]]]]]]]]]]]]]]]]]]]]]]]]]]];
      try discriminate Hc; reflexivity.
Qed.




(** ** What the XML primitive returns for what the conversion writes *)

Lemma parse_spectral (m : spectral_model) :
  pset_safe (spectral_parameters m) = true ->
  xmltodict.parse (SpectralModel.to_xml m) =
  Ok (XDict [] [("spectrum", model_value (SpectralModel.xml_type m) (spectral_parameters m))]).
Proof.
  intros Hsafe. unfold xmltodict.parse.
  replace (xmltodict.body (SpectralModel.to_xml m)) with (SpectralModel.to_xml m)
    by (destruct m as [[] pset]; reflexivity).
  rewrite (scan_spectral _ _ Hsafe).
  cbn [text_events app xmltodict.trailing_space xmltodict.all_space].
  unfold xmltodict.initial.
  rewrite feed_model by reflexivity. destruct m as [cls [data]]. reflexivity.
Qed.

Lemma parse_spatial (m : spatial_model) :
  pset_safe (spatial_parameters m) = true ->
  xmltodict.parse (SpatialModel.to_xml m) =
  Ok (XDict []
        [("spatialModel", model_value (SpatialModel.xml_type m) (spatial_parameters m))]).
Proof.
  intros Hsafe. unfold xmltodict.parse.
  replace (xmltodict.body (SpatialModel.to_xml m)) with (SpatialModel.to_xml m)
    by (destruct m as [[] pset]; reflexivity).
  rewrite (scan_spatial _ _ Hsafe).
  cbn [text_events app xmltodict.trailing_space xmltodict.all_space].
  unfold xmltodict.initial.
  rewrite feed_model by reflexivity. destruct m as [cls [data]]. reflexivity.
Qed.

Lemma parse_source (s : SourceModel.t) :
  source_safe s = true ->
  xmltodict.parse (SourceModel.to_xml s) = Ok (XDict [] [("source", source_value s)]).
Proof.
  intros Hsafe. unfold xmltodict.parse.
  change (xmltodict.body (SourceModel.to_xml s)) with (SourceModel.to_xml s).
  rewrite (scan_source _ _ Hsafe).
  cbn [text_events app xmltodict.trailing_space]. unfold xmltodict.initial.
  rewrite feed_source by reflexivity. reflexivity.
Qed.


(** ** Reading the mapping back *)

Lemma read_params (data : list Param.t) :
  Forall float_round_trip data ->
  map_result Param.from_dict_xml (map param_value data) = Ok data.
Proof.
  induction 1 as [|p data Hp _ IH]; cbn [map map_result].
  - reflexivity.
  - rewrite IH.
    unfold Param.from_dict_xml, param_value, Param.init, py_float.
    cbn [attr_get attr assoc String.eqb Ascii.eqb Bool.eqb bind].
    rewrite Hp. destruct p. reflexivity.
Qed.

Lemma read_spectral (m : spectral_model) :
  Forall float_round_trip (ParameterSet.data (spectral_parameters m)) ->
  SpectralModel.from_xml_dict
    (model_value (SpectralModel.xml_type m) (spectral_parameters m)) =
  match ParameterSet.data (spectral_parameters m) with
  | [] => Raise (KeyError "parameter")
  | [_] => Raise AttributeError
  | _ => Ok m
  end.
Proof.
  destruct m as [cls [data]]. cbn [spectral_parameters ParameterSet.data]. intros Hrt.
  unfold SpectralModel.from_xml_dict, model_value.
  cbn [attr assoc String.eqb Ascii.eqb Bool.eqb bind ParameterSet.data].
  destruct data as [|p [|q data]].
  - reflexivity.
  - reflexivity.
  - unfold ParameterSet.from_list_of_dict_xml.
    cbn [children map item assoc String.eqb Ascii.eqb Bool.eqb bind iter].
    change (param_value p :: param_value q :: map param_value data)
      with (map param_value (p :: q :: data)).
    rewrite (read_params _ Hrt). destruct cls; reflexivity.
Qed.

Lemma read_spatial (m : spatial_model) :
  SpatialModel.from_xml_dict
    (model_value (SpatialModel.xml_type m) (spatial_parameters m)) =
  Ok (mkSpatial (spatial_class_of m) (ParameterSet.mk [])).
Proof. destruct m as [[] pset]; reflexivity. Qed.

Lemma read_source (s : SourceModel.t) :
  2 <= length (ParameterSet.data (spectral_parameters (SourceModel.spectral_model s))) ->
  Forall float_round_trip
    (ParameterSet.data (spectral_parameters (SourceModel.spectral_model s))) ->
  SourceModel.from_xml_dict (source_value s) = Ok (forget_spatial s).
Proof.
  intros Hlen Hrt. unfold SourceModel.from_xml_dict, source_value.
  cbn [attr item contains keys map fst app existsb assoc String.eqb Ascii.eqb Bool.eqb
         bind orb].
  rewrite (read_spectral _ Hrt), read_spatial.
  destruct (ParameterSet.data (spectral_parameters (SourceModel.spectral_model s)))
    as [|p [|q data]]; cbn [length] in Hlen.
  - inversion Hlen.
  - inversion Hlen as [|? Hle]. inversion Hle.
  - reflexivity.
Qed.



(** ** Round trips through the XML text *)

(** X11: a spectral model whose texts can be written is written by
    [to_xml] and read back by [from_xml_dict] as the same model when it has
    two parameters or more and their values survive formatting.  With one
    parameter, reading raises [AttributeError], and with none it raises
    [KeyError] for the [parameter] key. *)
Theorem spectral_model_xml_round_trip (m : spectral_model) :
  pset_safe (spectral_parameters m) = true ->
  Forall float_round_trip (ParameterSet.data (spectral_parameters m)) ->
  (let* document := xmltodict.parse (SpectralModel.to_xml m) in
   let* spectrum := item document "spectrum" in
   SpectralModel.from_xml_dict spectrum) =
  match ParameterSet.data (spectral_parameters m) with
  | [] => Raise (KeyError "parameter")
  | [_] => Raise AttributeError
  | _ => Ok m
  end.
Proof.
  intros Hsafe Hrt. rewrite (parse_spectral _ Hsafe). cbn [bind item assoc String.eqb].
  cbn [Ascii.eqb Bool.eqb]. apply (read_spectral _ Hrt).
Qed.

(** X12: a spatial model whose texts can be written is written by
    [to_xml] with its parameters and read back by [from_xml_dict] as a
    model of the same class without parameters, however many it had. *)
Theorem spatial_model_xml_loses_parameters (m : spatial_model) :
  pset_safe (spatial_parameters m) = true ->
  (let* document := xmltodict.parse (SpatialModel.to_xml m) in
   let* child := item document "spatialModel" in
   SpatialModel.from_xml_dict child) =
  Ok (mkSpatial (spatial_class_of m) (ParameterSet.mk [])).
Proof.
  intros Hsafe. rewrite (parse_spatial _ Hsafe). cbn [bind item assoc String.eqb].
  cbn [Ascii.eqb Bool.eqb]. apply read_spatial.
Qed.

(** X13: a source model whose texts can be written, and whose spectral
    model has two parameters or more with values that survive formatting,
    is written by [to_xml] and read back by [from_xml_dict] with the same
    name, type and spectral model, and with a spatial model of the same
    class that has lost its parameters. *)
Theorem source_model_xml_round_trip (s : SourceModel.t) :
  source_readable s ->
  (let* document := xmltodict.parse (SourceModel.to_xml s) in
   let* source := item document "source" in
   SourceModel.from_xml_dict source) =
  Ok (forget_spatial s).
Proof.
  intros (Hsafe & Hlen & Hrt). rewrite (parse_source _ Hsafe).
  cbn [bind item assoc String.eqb]. cbn [Ascii.eqb Bool.eqb].
  apply (read_source _ Hlen Hrt).
Qed.



End FurtherProperties.

(** * Further worked examples *)

Module MoreExamples.

#[local] Set Warnings "-inexact-float".

(** The catalog parameters of an integral power law, and the same
    without an index. *)
Definition powerlaw2_pset : ParameterSet.t :=
  ParameterSet.mk
    [ Param.mk "amplitude" 1e-12 "cm-2 s-1";
      Param.mk "index" 2.3 EmptyString;
      Param.mk "emin" 1 "TeV";
      Param.mk "emax" 10 "TeV" ].

Definition no_index_pset : ParameterSet.t :=
  ParameterSet.mk
    [ Param.mk "amplitude" 1e-12 "cm-2 s-1";
      Param.mk "emin" 1 "TeV";
      Param.mk "emax" 10 "TeV" ].

(** A spectrum element with a type string that is no primary one, and a
    spectrum element with a single parameter, as the XML primitive returns
    them. *)
Definition two_parameters : xml_value :=
  XList [ XDict [("@name", "Prefactor"); ("@value", "1e-12")] [];
          XDict [("@name", "Index"); ("@value", "-2.3"); ("@unit", EmptyString)] [] ].

Definition unknown_spectrum : xml_value :=
  XDict [("@type", "PLSuperExpCutoff")] [("parameter", two_parameters)].

Definition single_parameter_spectrum : xml_value :=
  XDict [("@type", "PowerLaw")]
    [("parameter", XDict [("@name", "Index"); ("@value", "-2.3")] [])].

End MoreExamples.

Section FurtherExamples.

#[local] Set Warnings "-inexact-float".

(** The integral power law of amplitude 1e-12 between 1 and 10 TeV with
    index 2.3. *)
Lemma powerlaw2_from_pset_example :
  SpectralModelPowerLaw2.from_pset MoreExamples.powerlaw2_pset =
  Ok (mkSpectral PowerLaw2
        (ParameterSet.mk
           [ Param.mk "Integral" 1e-12 "cm-2 s-1";
             Param.mk "Index" (-2.3) EmptyString;
             Param.mk "LowerLimit" 1 "TeV";
             Param.mk "UpperLimit" 10 "TeV" ])).
Proof.
  exact (powerlaw2_from_pset MoreExamples.powerlaw2_pset
           (Param.mk "amplitude" 1e-12 "cm-2 s-1")
           (Param.mk "index" 2.3 EmptyString)
           (Param.mk "emin" 1 "TeV")
           (Param.mk "emax" 10 "TeV")
           eq_refl eq_refl eq_refl eq_refl).
Defined.

(** A set with an amplitude and limits but no index: the conversion stops
    at the index. *)
Lemma from_pset_no_index_example :
  SpectralModelPowerLaw2.from_pset MoreExamples.no_index_pset =
  Raise (IndexError
           ("Parameter index not found for pset: " ++
            ParameterSet.repr MoreExamples.no_index_pset)).
Proof.
  apply (proj1 (from_pset_required_names PowerLaw2 MoreExamples.no_index_pset)
           ["amplitude"] "index" ["emin"; "emax"] eq_refl).
  - intros [E|[]]. discriminate E.
  - intros k [<-|[]]. exists (Param.mk "amplitude" 1e-12 "cm-2 s-1").
    split; [left; reflexivity | reflexivity].
  - intros p [<-|[<-|[<-|[]]]]; discriminate.
Defined.

(** A type string that is no primary one raises, after the parameters
    were read. *)
Lemma spectral_from_xml_dict_unknown_example :
  SpectralModel.from_xml_dict MoreExamples.unknown_spectrum =
  Raise (UnknownModelError "Unknown spatial model: PLSuperExpCutoff").
Proof.
  pose proof (proj2 (spectral_from_xml_dict_dispatch MoreExamples.unknown_spectrum
                       MoreExamples.two_parameters "PLSuperExpCutoff" eq_refl eq_refl)
                (ParameterSet.mk
                   [ Param.mk "Prefactor" 1e-12 EmptyString;
                     Param.mk "Index" (-2.3) EmptyString ]))
    as Hdispatch.
  apply Hdispatch; [vm_compute; reflexivity|].
  intros [E|[E|[E|[]]]]; discriminate E.
Defined.

(** A spectrum with a single parameter element raises [AttributeError]. *)
Lemma spectral_from_xml_dict_single_parameter_example :
  SpectralModel.from_xml_dict MoreExamples.single_parameter_spectrum = Raise AttributeError.
Proof.
  apply (proj2 (spectral_from_xml_dict_single_parameter
                  MoreExamples.single_parameter_spectrum "PowerLaw"
                  [("@name", "Index"); ("@value", "-2.3")] [] eq_refl eq_refl
                  ltac:(discriminate))).
Defined.

(** The Gaussian catalog source with its power-law dictionary. *)
Lemma spectral_from_gammacat_dispatch_example :
  SpectralModel.from_gammacat Examples.gauss_source =
  Ok (SourceModel.spectral_model Examples.gauss_model).
Proof.
  rewrite (proj1 (proj2 (spectral_from_gammacat_dispatch Examples.gauss_source
                           (mkGammacatSpectrum "PowerLaw" Examples.powerlaw_parameters)
                           eq_refl)) eq_refl).
  reflexivity.
Defined.

(** In the source element that calls itself a point source, the spatial
    model is read from the child [spatialModel]. *)
Lemma source_from_xml_dict_spatial_child_example :
  SourceModel.from_xml_dict Examples.mismatched_mapping = Ok Examples.mismatched_model.
Proof.
  pose proof (source_from_xml_dict_spatial_child
                [("@name", "Vela X"); ("@type", "PointSource")]
                [ ("spectrum",
                   XDict [("@type", "PowerLaw")]
                     [("parameter",
                       XList
                         [ XDict [("@name", "Prefactor"); ("@value", "1e-12");
                                  ("@unit", "cm-2 s-1 TeV-1")] [];
                           XDict [("@name", "Index"); ("@value", "-2.3");
                                  ("@unit", EmptyString)] [];
                           XDict [("@name", "Scale"); ("@value", "1.0");
                                  ("@unit", "TeV")] [] ])]);
                  ("spatialModel", XDict [("@type", "Gauss")] []) ]
                "Vela X" "PointSource" _ (SourceModel.spectral_model Examples.gauss_model)
                ltac:(repeat constructor) eq_refl eq_refl eq_refl eq_refl)
    as (_ & Hchild & _).
  exact (Hchild (XDict [("@type", "Gauss")] []) eq_refl eq_refl).
Defined.

Lemma crab_readable : source_readable Examples.crab.
Proof.
  split; [reflexivity|]. split; [repeat constructor|].
  repeat constructor.
Qed.

(** The spectral model of the example source is read back as it is. *)
Lemma spectral_model_xml_round_trip_example :
  (let* document :=
     xmltodict.parse (SpectralModel.to_xml (SourceModel.spectral_model Examples.crab)) in
   let* spectrum := item document "spectrum" in
   SpectralModel.from_xml_dict spectrum) =
  Ok (SourceModel.spectral_model Examples.crab).
Proof.
  exact (spectral_model_xml_round_trip (SourceModel.spectral_model Examples.crab)
           eq_refl (proj2 (proj2 crab_readable))).
Defined.

(** The spatial model of the example source is read back without its
    position. *)
Lemma spatial_model_xml_loses_parameters_example :
  (let* document :=
     xmltodict.parse (SpatialModel.to_xml (SourceModel.spatial_model Examples.crab)) in
   let* child := item document "spatialModel" in
   SpatialModel.from_xml_dict child) =
  Ok (mkSpatial Point (ParameterSet.mk [])).
Proof.
  exact (spatial_model_xml_loses_parameters (SourceModel.spatial_model Examples.crab)
           eq_refl).
Defined.

(** The example source is read back without its position. *)
Lemma source_model_xml_round_trip_example :
  (let* document := xmltodict.parse (SourceModel.to_xml Examples.crab) in
   let* source := item document "source" in
   SourceModel.from_xml_dict source) =
  Ok (forget_spatial Examples.crab).
Proof. exact (source_model_xml_round_trip Examples.crab crab_readable). Defined.



End FurtherExamples.
